(** * The NBI example client (examples/nbi_client_py/main.py)

    A shallow embedding of the dynamic gRPC client [DynamicNBI], of the
    snapshot printers and of the driver [main], followed by the properties
    of the client that the specification states.

    What belongs to the Python runtime and to the grpc and protobuf
    libraries is modelled only as far as the client relies on it:
    - a message is a record of its fields; a scalar field holds its value
      (empty string, zero when never assigned), a singular message field
      holds [None] until it is set, and reading it while unset yields the
      default instance of the sub-message, as protobuf does;
    - a message object is true in a condition, whatever its content
      (message classes define neither [__bool__] nor [__len__]);
    - a double is represented by its exact value ([spec_float]);
    - methods run in a state-and-exception monad: the state holds the
      client object, the calls handed to the channel and standard output;
      an exception ends the run;
    - the descriptor pool accepts a file only after the files it imports,
      and only when it defines no name that is already defined;
    - a call whose response does not deserialize fails with the status
      INTERNAL, as grpc reports an exception of the deserializer;
    - the wire codec, the file system and the remote service are an
      environment the client is parameterised by. *)

From Stdlib Require Import ZArith Floats.SpecFloat.
From stdpp Require Import base option list strings gmap pretty.

(** ** Python floats and the [.1f] format *)

Module PyFloat.

(** A float literal with an integral value, such as [6_372_000.0]. *)
Definition of_Z (z : Z) : spec_float :=
  match z with
  | Z0 => S754_zero false
  | Zpos p => S754_finite false p 0
  | Zneg p => S754_finite true p 0
  end.

(** [n / d] rounded to the nearest integer, ties to even ([0 < d]). *)
Definition round_half_even (n d : Z) : Z :=
  let q := (n / d)%Z in
  let r := (n mod d)%Z in
  if (2 * r <? d)%Z then q
  else if (d <? 2 * r)%Z then (q + 1)%Z
  else if Z.even q then q else (q + 1)%Z.

(** The magnitude [m * 2^e] in tenths, correctly rounded. *)
Definition tenths (m : positive) (e : Z) : Z :=
  if (0 <=? e)%Z then (10 * Zpos m * 2 ^ e)%Z
  else round_half_even (10 * Zpos m) (2 ^ (- e)).

Definition sign (s : bool) : string := if s then "-" else "".

(** [f"{x:.1f}"] *)
Definition format_1f (x : spec_float) : string :=
  match x with
  | S754_zero s => sign s +:+ "0.0"
  | S754_infinity s => sign s +:+ "inf"
  | S754_nan => "nan"
  | S754_finite s m e =>
      let t := tenths m e in
      sign s +:+ pretty (t / 10)%Z +:+ "." +:+ pretty (t mod 10)%Z
  end.

End PyFloat.

(** ** The messages the client builds and reads

    The descriptor bundle that defines them is loaded at run time; the
    layouts below are the fields the client addresses by name. *)

(** Reading a singular message field: the default instance when unset. *)
Definition read {A} (new : A) (field : option A) : A :=
  match field with
  | Some m => m
  | None => new
  end.

Module Cartesian.
Record t := mk { x_m : spec_float; y_m : spec_float; z_m : spec_float }.
Definition new : t := mk (S754_zero false) (S754_zero false) (S754_zero false).
Definition set_x_m (v : spec_float) (m : t) : t := mk v (y_m m) (z_m m).
Definition set_y_m (v : spec_float) (m : t) : t := mk (x_m m) v (z_m m).
Definition set_z_m (v : spec_float) (m : t) : t := mk (x_m m) (y_m m) v.
End Cartesian.

Module PointAxes.
Record t := mk { has_point : option Cartesian.t }.
Definition new : t := mk None.
Definition point (m : t) : Cartesian.t := read Cartesian.new (has_point m).
(** Assigning through [m.point] makes the sub-message present. *)
Definition mut_point (f : Cartesian.t -> Cartesian.t) (m : t) : t :=
  mk (Some (f (point m))).
End PointAxes.

Module Motion.
Record t := mk { has_ecef_fixed : option PointAxes.t }.
Definition new : t := mk None.
Definition ecef_fixed (m : t) : PointAxes.t := read PointAxes.new (has_ecef_fixed m).
Definition mut_ecef_fixed (f : PointAxes.t -> PointAxes.t) (m : t) : t :=
  mk (Some (f (ecef_fixed m))).
End Motion.

Module PlatformDefinition.
Record t := mk {
  name : string;
  type : string;
  motion_source : Z;
  has_coordinates : option Motion.t
}.
Definition new : t := mk "" "" 0 None.
Definition coordinates (m : t) : Motion.t := read Motion.new (has_coordinates m).
Definition set_name (v : string) (m : t) : t :=
  mk v (type m) (motion_source m) (has_coordinates m).
Definition set_type (v : string) (m : t) : t :=
  mk (name m) v (motion_source m) (has_coordinates m).
Definition set_motion_source (v : Z) (m : t) : t :=
  mk (name m) (type m) v (has_coordinates m).
Definition mut_coordinates (f : Motion.t -> Motion.t) (m : t) : t :=
  mk (name m) (type m) (motion_source m) (Some (f (coordinates m))).
End PlatformDefinition.

Module TransceiverModelId.
Record t := mk { transceiver_model_id : string }.
Definition new : t := mk "".
Definition set_transceiver_model_id (v : string) (m : t) : t := mk v.
End TransceiverModelId.

Module WirelessDevice.
Record t := mk {
  platform : string;
  has_transceiver_model_id : option TransceiverModelId.t
}.
Definition new : t := mk "" None.
Definition transceiver_model_id (m : t) : TransceiverModelId.t :=
  read TransceiverModelId.new (has_transceiver_model_id m).
Definition set_platform (v : string) (m : t) : t :=
  mk v (has_transceiver_model_id m).
Definition mut_transceiver_model_id
  (f : TransceiverModelId.t -> TransceiverModelId.t) (m : t) : t :=
  mk (platform m) (Some (f (transceiver_model_id m))).
End WirelessDevice.

Module NetworkInterface.
Record t := mk {
  interface_id : string;
  has_wireless : option WirelessDevice.t
}.
Definition new : t := mk "" None.
Definition wireless (m : t) : WirelessDevice.t :=
  read WirelessDevice.new (has_wireless m).
Definition set_interface_id (v : string) (m : t) : t := mk v (has_wireless m).
Definition mut_wireless (f : WirelessDevice.t -> WirelessDevice.t) (m : t) : t :=
  mk (interface_id m) (Some (f (wireless m))).
End NetworkInterface.

Module NetworkNode.
Record t := mk {
  node_id : string;
  type : string;
  node_interface : list NetworkInterface.t
}.
Definition new : t := mk "" "" [].
Definition set_node_id (v : string) (m : t) : t := mk v (type m) (node_interface m).
Definition set_type (v : string) (m : t) : t := mk (node_id m) v (node_interface m).
(** [m.node_interface.append(iface)] *)
Definition node_interface_append (iface : NetworkInterface.t) (m : t) : t :=
  mk (node_id m) (type m) (node_interface m ++ [iface]).
End NetworkNode.

Module BidirectionalLink.
Record t := mk {
  a_network_node_id : string;
  a_tx_interface_id : string;
  a_rx_interface_id : string;
  b_network_node_id : string;
  b_tx_interface_id : string;
  b_rx_interface_id : string
}.
Definition new : t := mk "" "" "" "" "" "".
Definition set_a_network_node_id (v : string) (m : t) : t :=
  mk v (a_tx_interface_id m) (a_rx_interface_id m)
     (b_network_node_id m) (b_tx_interface_id m) (b_rx_interface_id m).
Definition set_a_tx_interface_id (v : string) (m : t) : t :=
  mk (a_network_node_id m) v (a_rx_interface_id m)
     (b_network_node_id m) (b_tx_interface_id m) (b_rx_interface_id m).
Definition set_a_rx_interface_id (v : string) (m : t) : t :=
  mk (a_network_node_id m) (a_tx_interface_id m) v
     (b_network_node_id m) (b_tx_interface_id m) (b_rx_interface_id m).
Definition set_b_network_node_id (v : string) (m : t) : t :=
  mk (a_network_node_id m) (a_tx_interface_id m) (a_rx_interface_id m)
     v (b_tx_interface_id m) (b_rx_interface_id m).
Definition set_b_tx_interface_id (v : string) (m : t) : t :=
  mk (a_network_node_id m) (a_tx_interface_id m) (a_rx_interface_id m)
     (b_network_node_id m) v (b_rx_interface_id m).
Definition set_b_rx_interface_id (v : string) (m : t) : t :=
  mk (a_network_node_id m) (a_tx_interface_id m) (a_rx_interface_id m)
     (b_network_node_id m) (b_tx_interface_id m) v.
End BidirectionalLink.

Module ClearScenarioRequest.
Record t := mk { }.
Definition new : t := mk.
End ClearScenarioRequest.

Module GetScenarioRequest.
Record t := mk { }.
Definition new : t := mk.
End GetScenarioRequest.

Module empty_pb2.
Module Empty.
Record t := mk { }.
Definition new : t := mk.
End Empty.
End empty_pb2.

Module ScenarioSnapshot.
Record t := mk {
  platforms : list PlatformDefinition.t;
  nodes : list NetworkNode.t;
  links : list BidirectionalLink.t
}.
Definition new : t := mk [] [] [].
End ScenarioSnapshot.

(** ** The snapshot printers

    Standard output is the list of the strings passed to [print], oldest
    first; each printer takes the output so far and returns it extended. *)

Definition print (line : string) (stdout : list string) : list string :=
  stdout ++ [line].

(** [getattr(obj, name, default)], where [obj] is either a message that
    has the field ([Some]) or [None]: a message yields the value of the
    field, which for a message field is never [None]; [None] has no
    attribute and yields the default. *)
Definition getattr {A B} (obj : option A) (attr : A -> B) (dflt : option B) : option B :=
  match obj with
  | Some o => Some (attr o)
  | None => dflt
  end.

Definition print_platforms (platforms : list PlatformDefinition.t) (indent : string)
  (stdout : list string) : list string :=
  let stdout := print (indent +:+ "Platforms:") stdout in
  foldl (fun stdout p =>
    let pt :=
      getattr (getattr (getattr (Some p) PlatformDefinition.coordinates None)
                 Motion.ecef_fixed None) PointAxes.point None in
    let coord := "n/a" in
    let coord :=
      match pt with
      | Some pt => (* a message object is true *)
          "(" +:+ PyFloat.format_1f (Cartesian.x_m pt) +:+ ", "
              +:+ PyFloat.format_1f (Cartesian.y_m pt) +:+ ", "
              +:+ PyFloat.format_1f (Cartesian.z_m pt) +:+ ") m"
      | None => coord
      end in
    print (indent +:+ "- " +:+ PlatformDefinition.name p +:+ " ["
             +:+ PlatformDefinition.type p +:+ "] coords=" +:+ coord) stdout)
    stdout platforms.

Definition print_nodes (nodes : list NetworkNode.t) (indent : string)
  (stdout : list string) : list string :=
  let stdout := print (indent +:+ "Nodes:") stdout in
  foldl (fun stdout n =>
    let stdout :=
      print (indent +:+ "- " +:+ NetworkNode.node_id n +:+ " ["
               +:+ NetworkNode.type n +:+ "]") stdout in
    foldl (fun stdout iface =>
      let wireless := NetworkInterface.wireless iface in
      let trx :=
        read "" (getattr (getattr (Some wireless) WirelessDevice.transceiver_model_id None)
                   TransceiverModelId.transceiver_model_id (Some "")) in
      print (indent +:+ "  interface " +:+ NetworkInterface.interface_id iface
               +:+ " platform=" +:+ WirelessDevice.platform wireless
               +:+ " trx=" +:+ trx) stdout)
      stdout (NetworkNode.node_interface n))
    stdout nodes.

Definition print_links (links : list BidirectionalLink.t) (indent : string)
  (stdout : list string) : list string :=
  let stdout := print (indent +:+ "Links:") stdout in
  foldl (fun stdout l =>
    print (indent +:+ "- " +:+ BidirectionalLink.a_network_node_id l +:+ "/"
             +:+ BidirectionalLink.a_tx_interface_id l +:+ " <-> "
             +:+ BidirectionalLink.b_network_node_id l +:+ "/"
             +:+ BidirectionalLink.b_tx_interface_id l) stdout)
    stdout links.

(** ** Exceptions and the state-and-exception monad *)

(** How a remote call fails ([grpc.RpcError]): deadline exceeded, the
    connection failed, or the service answered with a status. *)
Inductive RpcFailure :=
| RpcTimeoutError
| RpcTransportError
| RpcStatusError (code : Z) (details : string).

Inductive Exception :=
| FileNotFoundError (path : string)
| DecodeError
| TypeError (file : string)          (* the pool could not build the file *)
| SchemaLookupError (key : string)   (* the [KeyError] of a pool or dict lookup *)
| RpcError (failure : RpcFailure).

Definition raise {A} (e : Exception) : Exception + A := inl e.

#[global] Instance result_ret : MRet (sum Exception) := fun A x => inr x.
#[global] Instance result_bind : MBind (sum Exception) := fun A B f r =>
  match r with
  | inl e => inl e
  | inr x => f x
  end.

(** A computation over a state [S]: it ends with a value or an exception,
    and in both cases with a state. *)
Definition M (S A : Type) : Type := S -> (Exception + A) * S.

#[global] Instance M_ret {S} : MRet (M S) := fun A x s => (inr x, s).
#[global] Instance M_bind {S} : MBind (M S) := fun A B f m s =>
  match m s with
  | (inl e, s') => (inl e, s')
  | (inr x, s') => f x s'
  end.

(** ** Descriptors, the descriptor pool and message classes *)

Definition bytes : Type := list Byte.byte.

Record Descriptor := { full_name : string }.
Record EnumValueDescriptor := { number : Z }.
Record EnumDescriptor := {
  enum_full_name : string;
  values_by_name : gmap string EnumValueDescriptor
}.

(** A file of the bundle: its name, the names of the files it imports,
    and the message and enum types it declares (nested ones included,
    under their fully-qualified names). *)
Record FileDescriptorProto := {
  file_name : string;
  dependency : list string;
  message_types : list Descriptor;
  enum_types : list EnumDescriptor
}.

#[global] Instance Descriptor_eq_dec : EqDecision Descriptor.
Proof. solve_decision. Defined.
#[global] Instance EnumValueDescriptor_eq_dec : EqDecision EnumValueDescriptor.
Proof. solve_decision. Defined.
#[global] Instance EnumDescriptor_eq_dec : EqDecision EnumDescriptor.
Proof. solve_decision. Defined.
#[global] Instance FileDescriptorProto_eq_dec : EqDecision FileDescriptorProto.
Proof. solve_decision. Defined.

(** [d[key]] on a dict *)
Definition getitem {V} (d : gmap string V) (key : string) : Exception + V :=
  match d !! key with
  | Some v => inr v
  | None => raise (SchemaLookupError key)
  end.

Module DescriptorPool.
Record t := mk {
  files : gmap string FileDescriptorProto;
  messages : gmap string Descriptor;
  enums : gmap string EnumDescriptor
}.
Definition new : t := mk ∅ ∅ ∅.

(** The names that a file defines; messages and enums share one name
    space. *)
Definition symbols (fd : FileDescriptorProto) : list string :=
  map full_name (message_types fd) ++ map enum_full_name (enum_types fd).

Definition defines (pool : t) (name : string) : bool :=
  bool_decide (is_Some (messages pool !! name))
  || bool_decide (is_Some (enums pool !! name)).

(** The checks of the pool on a file whose name is new to it: the files
    it imports are loaded, the names it defines are distinct and new, and
    the pool accepts the rest of its content ([accepts], which is given
    the files loaded so far). *)
Definition buildable (accepts : gmap string FileDescriptorProto -> FileDescriptorProto -> bool)
  (fd : FileDescriptorProto) (pool : t) : bool :=
  forallb (fun dep => bool_decide (is_Some (files pool !! dep))) (dependency fd)
  && bool_decide (NoDup (symbols fd))
  && forallb (fun name => negb (defines pool name)) (symbols fd)
  && accepts (files pool) fd.

(** [pool.Add(fd)]: a file equal to the loaded file of its name is
    ignored; a file that cannot be built raises [TypeError]. *)
Definition Add (accepts : gmap string FileDescriptorProto -> FileDescriptorProto -> bool)
  (fd : FileDescriptorProto) (pool : t) : Exception + t :=
  match files pool !! file_name fd with
  | Some loaded =>
      if decide (loaded = fd) then inr pool else raise (TypeError (file_name fd))
  | None =>
      if buildable accepts fd pool
      then inr (mk (<[file_name fd := fd]> (files pool))
                   (list_to_map (map (fun d => (full_name d, d)) (message_types fd))
                      ∪ messages pool)
                   (list_to_map (map (fun e => (enum_full_name e, e)) (enum_types fd))
                      ∪ enums pool))
      else raise (TypeError (file_name fd))
  end.
Definition FindMessageTypeByName (pool : t) (name : string) : Exception + Descriptor :=
  getitem (messages pool) name.
Definition FindEnumTypeByName (pool : t) (name : string) : Exception + EnumDescriptor :=
  getitem (enums pool) name.
End DescriptorPool.

(** The default instance of a message layout: what calling its class
    returns. *)
Class Layout (A : Type) := new : A.
#[global] Instance PlatformDefinition_layout : Layout PlatformDefinition.t :=
  PlatformDefinition.new.
#[global] Instance NetworkNode_layout : Layout NetworkNode.t := NetworkNode.new.
#[global] Instance NetworkInterface_layout : Layout NetworkInterface.t :=
  NetworkInterface.new.
#[global] Instance BidirectionalLink_layout : Layout BidirectionalLink.t :=
  BidirectionalLink.new.
#[global] Instance TransceiverModelId_layout : Layout TransceiverModelId.t :=
  TransceiverModelId.new.
#[global] Instance ClearScenarioRequest_layout : Layout ClearScenarioRequest.t :=
  ClearScenarioRequest.new.
#[global] Instance GetScenarioRequest_layout : Layout GetScenarioRequest.t :=
  GetScenarioRequest.new.
#[global] Instance ScenarioSnapshot_layout : Layout ScenarioSnapshot.t :=
  ScenarioSnapshot.new.
#[global] Instance Empty_layout : Layout empty_pb2.Empty.t := empty_pb2.Empty.new.

(** A message class, as [MessageFactory.GetPrototype] returns it. The
    index [A] records the layout under which the client uses the class. *)
Record MessageClass (A : Type) := { DESCRIPTOR : Descriptor }.
Arguments DESCRIPTOR {A} _.

Module MessageFactory.
Record t := mk { pool : DescriptorPool.t }.
Definition GetPrototype {A} (factory : t) (descriptor : Descriptor) : MessageClass A :=
  {| DESCRIPTOR := descriptor |}.
End MessageFactory.

(** [cls()] *)
Definition instantiate `{Layout A} (cls : MessageClass A) : A := new.

Definition empty_pb2_Empty : MessageClass empty_pb2.Empty.t :=
  {| DESCRIPTOR := {| full_name := "google.protobuf.Empty" |} |}.

(** The wire codec of a message layout. [ParseFromString msg data]
    replaces the content of [msg] by the decoded message and fails on
    bytes that do not decode. *)
Class Codec (A : Type) := {
  SerializeToString : A -> bytes;
  ParseFromString : A -> bytes -> option A
}.

(** ** The channel and the remote service *)

Record Channel := { target : string }.

(** [grpc.insecure_channel(target)] *)
Definition insecure_channel (target : string) : Channel := {| target := target |}.

(** One unary call as it leaves the client. *)
Record Call := {
  call_method : string;
  call_request : bytes;
  call_timeout : spec_float
}.

Inductive Outcome :=
| Response (data : bytes)
| Failure (failure : RpcFailure).

(** What lies outside the program: the file system, the decoder of
    descriptor bundles, what the pool accepts as the content of a file,
    and the transport with the remote service behind it, which answers a
    call knowing the calls made before on the channel. *)
Record Env := {
  read_bytes : string -> option bytes;
  parse_descriptor_set : bytes -> option (list FileDescriptorProto);
  pool_accepts : gmap string FileDescriptorProto -> FileDescriptorProto -> bool;
  transport : Channel -> list Call -> Call -> Outcome
}.

(** The state of a run outside the client object: the calls issued so
    far and standard output. *)
Record World := {
  calls : list Call;
  stdout : list string
}.

(** The failure of a call whose response the deserializer rejects: grpc
    catches the exception of the deserializer and fails the call with the
    status INTERNAL (13). *)
Definition deserializing_failed : RpcFailure :=
  RpcStatusError 13 "Exception deserializing response!".

(** [channel.unary_unary(method, request_serializer, response_deserializer)],
    applied to [(request, timeout)]: one call goes out; its answer is
    deserialized, a failure is raised. *)
Definition unary_unary {Req Resp} (env : Env) (channel : Channel) (method : string)
  (request_serializer : Req -> bytes)
  (response_deserializer : bytes -> Exception + Resp)
  (request : Req) (timeout : spec_float) : M World Resp := fun w =>
  let call :=
    {| call_method := method;
       call_request := request_serializer request;
       call_timeout := timeout |} in
  let w' := {| calls := calls w ++ [call]; stdout := stdout w |} in
  match transport env channel (calls w) call with
  | Response data =>
      match response_deserializer data with
      | inr response => (inr response, w')
      | inl _ => (raise (RpcError deserializing_failed), w')
      end
  | Failure failure => (raise (RpcError failure), w')
  end.

(** ** The client *)

Module DynamicNBI.

(** The attributes of a constructed client. *)
Record t := mk {
  channel : Channel;
  timeout : spec_float;
  pool : DescriptorPool.t;
  factory : MessageFactory.t;
  PlatformDefinition : MessageClass PlatformDefinition.t;
  NetworkNode : MessageClass NetworkNode.t;
  NetworkInterface : MessageClass NetworkInterface.t;
  BidirectionalLink : MessageClass BidirectionalLink.t;
  TransceiverModelId : MessageClass TransceiverModelId.t;
  ClearScenarioRequest : MessageClass ClearScenarioRequest.t;
  GetScenarioRequest : MessageClass GetScenarioRequest.t;
  ScenarioSnapshot : MessageClass ScenarioSnapshot.t;
  motion_unknown : Z
}.

(** A method runs on the client object and on the world. *)
Record State := {
  self : t;
  world : World
}.

Definition get_self : M State t := fun s => (inr (self s), s).

Definition in_world {A} (m : M World A) : M State A := fun s =>
  let (r, w) := m (world s) in
  (r, {| self := self s; world := w |}).

(** [_msg] reads the attributes [pool] and [factory] of [self], which
    [__init__] has assigned before it resolves the first name. *)
Definition _msg {A} (pool : DescriptorPool.t) (factory : MessageFactory.t)
  (name : string) : Exception + MessageClass A :=
  descriptor ← DescriptorPool.FindMessageTypeByName pool name;
  mret (MessageFactory.GetPrototype factory descriptor).

Section Methods.
Context (env : Env).
Context {platform_codec : Codec PlatformDefinition.t}
        {node_codec : Codec NetworkNode.t}
        {link_codec : Codec BidirectionalLink.t}
        {clear_codec : Codec ClearScenarioRequest.t}
        {get_codec : Codec GetScenarioRequest.t}
        {snapshot_codec : Codec ScenarioSnapshot.t}
        {empty_codec : Codec empty_pb2.Empty.t}.

(** The loop [for fd in fds.file: pool.Add(fd)]. *)
Fixpoint add_files (fds : list FileDescriptorProto) (pool : DescriptorPool.t)
  : Exception + DescriptorPool.t :=
  match fds with
  | [] => inr pool
  | fd :: fds =>
      pool ← DescriptorPool.Add (pool_accepts env) fd pool;
      add_files fds pool
  end.

Definition __init__ (channel : Channel) (descriptor_path : string)
  (timeout : spec_float) : Exception + t :=
  data ← match read_bytes env descriptor_path with
         | Some data => inr data
         | None => raise (FileNotFoundError descriptor_path)
         end;
  fds ← match parse_descriptor_set env data with
        | Some fds => inr fds
        | None => raise DecodeError
        end;
  pool ← add_files fds DescriptorPool.new;
  let factory := MessageFactory.mk pool in
  PlatformDefinition ← _msg pool factory "aalyria.spacetime.api.common.PlatformDefinition";
  NetworkNode ← _msg pool factory "aalyria.spacetime.api.nbi.v1alpha.resources.NetworkNode";
  NetworkInterface ← _msg pool factory "aalyria.spacetime.api.nbi.v1alpha.resources.NetworkInterface";
  BidirectionalLink ← _msg pool factory "aalyria.spacetime.api.nbi.v1alpha.resources.BidirectionalLink";
  TransceiverModelId ← _msg pool factory "aalyria.spacetime.api.common.TransceiverModelId";
  ClearScenarioRequest ← _msg pool factory "aalyria.spacetime.api.nbi.v1alpha.ClearScenarioRequest";
  GetScenarioRequest ← _msg pool factory "aalyria.spacetime.api.nbi.v1alpha.GetScenarioRequest";
  ScenarioSnapshot ← _msg pool factory "aalyria.spacetime.api.nbi.v1alpha.ScenarioSnapshot";
  motion_enum ← DescriptorPool.FindEnumTypeByName pool
                  "aalyria.spacetime.api.common.PlatformDefinition.MotionSource";
  unknown_source ← getitem (values_by_name motion_enum) "UNKNOWN_SOURCE";
  mret {| channel := channel; timeout := timeout; pool := pool; factory := factory;
          PlatformDefinition := PlatformDefinition; NetworkNode := NetworkNode;
          NetworkInterface := NetworkInterface; BidirectionalLink := BidirectionalLink;
          TransceiverModelId := TransceiverModelId;
          ClearScenarioRequest := ClearScenarioRequest;
          GetScenarioRequest := GetScenarioRequest;
          ScenarioSnapshot := ScenarioSnapshot;
          motion_unknown := number unknown_source |}.

Definition _parse `{Layout A, Codec A} (cls : MessageClass A) (data : bytes) : Exception + A :=
  let msg := instantiate cls in
  match ParseFromString msg data with
  | Some msg => inr msg
  | None => raise DecodeError
  end.

(** The serializer handed to the channel is the method bound to
    [request]: it serializes [request] whatever it is applied to. *)
Definition _unary {Req Resp} {req_codec : Codec Req} {resp_layout : Layout Resp}
  {resp_codec : Codec Resp} (method : string) (request : Req)
  (response_cls : MessageClass Resp) : M State Resp :=
  self ← get_self;
  let call :=
    unary_unary env (channel self) method
      (fun _ : Req => SerializeToString request)
      (fun data => _parse response_cls data) in
  in_world (call request (timeout self)).

Definition clear_scenario : M State unit :=
  self ← get_self;
  _ ← _unary "/aalyria.spacetime.api.nbi.v1alpha.ScenarioService/ClearScenario"
        (instantiate (ClearScenarioRequest self))
        empty_pb2_Empty;
  mret tt.

Definition create_platform (name : string) (typ : string)
  (coords : spec_float * spec_float * spec_float) : M State PlatformDefinition.t :=
  self ← get_self;
  let plat := instantiate (PlatformDefinition self) in
  let plat := PlatformDefinition.set_name name plat in
  let plat := PlatformDefinition.set_type typ plat in
  let plat := PlatformDefinition.set_motion_source (motion_unknown self) plat in
  let plat :=
    PlatformDefinition.mut_coordinates (Motion.mut_ecef_fixed (PointAxes.mut_point
      (Cartesian.set_x_m coords.1.1))) plat in
  let plat :=
    PlatformDefinition.mut_coordinates (Motion.mut_ecef_fixed (PointAxes.mut_point
      (Cartesian.set_y_m coords.1.2))) plat in
  let plat :=
    PlatformDefinition.mut_coordinates (Motion.mut_ecef_fixed (PointAxes.mut_point
      (Cartesian.set_z_m coords.2))) plat in
  _unary "/aalyria.spacetime.api.nbi.v1alpha.PlatformService/CreatePlatform"
    plat
    (PlatformDefinition self).

Definition create_node (node_id platform_id iface_id transceiver_id : string)
  : M State NetworkNode.t :=
  self ← get_self;
  let node := instantiate (NetworkNode self) in
  let node := NetworkNode.set_node_id node_id node in
  let node := NetworkNode.set_type "ROUTER" node in
  let iface := instantiate (NetworkInterface self) in
  let iface := NetworkInterface.set_interface_id iface_id iface in
  let iface :=
    NetworkInterface.mut_wireless (WirelessDevice.set_platform platform_id) iface in
  let iface :=
    NetworkInterface.mut_wireless (WirelessDevice.mut_transceiver_model_id
      (TransceiverModelId.set_transceiver_model_id transceiver_id)) iface in
  let node := NetworkNode.node_interface_append iface node in
  _unary "/aalyria.spacetime.api.nbi.v1alpha.NetworkNodeService/CreateNode"
    node
    (NetworkNode self).

Definition create_link (a_node a_iface b_node b_iface : string)
  : M State BidirectionalLink.t :=
  self ← get_self;
  let link := instantiate (BidirectionalLink self) in
  let link := BidirectionalLink.set_a_network_node_id a_node link in
  let link := BidirectionalLink.set_a_tx_interface_id a_iface link in
  let link := BidirectionalLink.set_a_rx_interface_id a_iface link in
  let link := BidirectionalLink.set_b_network_node_id b_node link in
  let link := BidirectionalLink.set_b_tx_interface_id b_iface link in
  let link := BidirectionalLink.set_b_rx_interface_id b_iface link in
  _unary "/aalyria.spacetime.api.nbi.v1alpha.NetworkLinkService/CreateLink"
    link
    (BidirectionalLink self).

Definition get_scenario : M State ScenarioSnapshot.t :=
  self ← get_self;
  _unary "/aalyria.spacetime.api.nbi.v1alpha.ScenarioService/GetScenario"
    (instantiate (GetScenarioRequest self))
    (ScenarioSnapshot self).

End Methods.
End DynamicNBI.

(** ** The driver *)

(** The parsed command line ([argparse.Namespace]). *)
Module Namespace.
Record t := mk {
  endpoint : string;
  transceiver_id : string;
  descriptor : string;
  timeout : spec_float;
  skip_clear : bool
}.
End Namespace.

(** The line feed written as a backslash and n in a Python literal. *)
Definition LF : string := String (Ascii.ascii_of_nat 10) "".

(** Writing to standard output. *)
Definition write (printer : list string -> list string) : M World unit := fun w =>
  (inr tt, {| calls := calls w; stdout := printer (stdout w) |}).

(** Running methods of [client] from the driver. *)
Definition with_client {A} (client : DynamicNBI.t) (m : M DynamicNBI.State A) : M World A :=
  fun w =>
  let (r, s) := m {| DynamicNBI.self := client; DynamicNBI.world := w |} in
  (r, DynamicNBI.world s).

Section Driver.
Context (env : Env).
Context {platform_codec : Codec PlatformDefinition.t}
        {node_codec : Codec NetworkNode.t}
        {link_codec : Codec BidirectionalLink.t}
        {clear_codec : Codec ClearScenarioRequest.t}
        {get_codec : Codec GetScenarioRequest.t}
        {snapshot_codec : Codec ScenarioSnapshot.t}
        {empty_codec : Codec empty_pb2.Empty.t}.

Definition main (args : Namespace.t) : M World unit := fun w =>
  let channel := insecure_channel (Namespace.endpoint args) in
  match DynamicNBI.__init__ env channel (Namespace.descriptor args)
          (Namespace.timeout args) with
  | inl e => (inl e, w)
  | inr client =>
      with_client client (
        _ ← (if negb (Namespace.skip_clear args)
             then DynamicNBI.clear_scenario env
             else mret tt);
        _ ← DynamicNBI.create_platform env "platform-ground" "GROUND_STATION"
              (PyFloat.of_Z 6372000, PyFloat.of_Z 0, PyFloat.of_Z 0);
        _ ← DynamicNBI.create_platform env "platform-sat" "SATELLITE"
              (PyFloat.of_Z 6871000, PyFloat.of_Z 0, PyFloat.of_Z 0);
        _ ← DynamicNBI.create_node env "node-ground" "platform-ground" "if-ground"
              (Namespace.transceiver_id args);
        _ ← DynamicNBI.create_node env "node-sat" "platform-sat" "if-sat"
              (Namespace.transceiver_id args);
        _ ← DynamicNBI.create_link env "node-ground" "if-ground" "node-sat" "if-sat";
        snapshot ← DynamicNBI.get_scenario env;
        DynamicNBI.in_world (
          _ ← write (print (LF +:+ "Scenario snapshot:"));
          _ ← write (print_platforms (ScenarioSnapshot.platforms snapshot) "  ");
          _ ← write (print_nodes (ScenarioSnapshot.nodes snapshot) "  ");
          write (print_links (ScenarioSnapshot.links snapshot) "  "))) w
  end.

End Driver.

(** ** A test environment

    Test doubles for what the environment provides: a file system holding
    one descriptor bundle, a codec under which the empty byte string
    decodes to the default instance (as it does on the wire), and two
    transports, a service that answers every call and a connection that
    fails. *)

Module TestEnv.

Definition MotionSource : EnumDescriptor :=
  {| enum_full_name := "aalyria.spacetime.api.common.PlatformDefinition.MotionSource";
     values_by_name :=
       <["UNKNOWN_SOURCE" := {| number := 0 |}]>
         (<["SPACETRACK_ORG" := {| number := 1 |}]> ∅) |}.

(** The second file imports the first. *)
Definition bundle : list FileDescriptorProto :=
  [ {| file_name := "api/common/platform.proto";
       dependency := [];
       message_types :=
         [ {| full_name := "aalyria.spacetime.api.common.PlatformDefinition" |};
           {| full_name := "aalyria.spacetime.api.common.TransceiverModelId" |} ];
       enum_types := [MotionSource] |};
    {| file_name := "api/nbi/v1alpha/nbi.proto";
       dependency := ["api/common/platform.proto"];
       message_types :=
         [ {| full_name := "aalyria.spacetime.api.nbi.v1alpha.resources.NetworkNode" |};
           {| full_name := "aalyria.spacetime.api.nbi.v1alpha.resources.NetworkInterface" |};
           {| full_name := "aalyria.spacetime.api.nbi.v1alpha.resources.BidirectionalLink" |};
           {| full_name := "aalyria.spacetime.api.nbi.v1alpha.ClearScenarioRequest" |};
           {| full_name := "aalyria.spacetime.api.nbi.v1alpha.GetScenarioRequest" |};
           {| full_name := "aalyria.spacetime.api.nbi.v1alpha.ScenarioSnapshot" |} ];
       enum_types := [] |} ].

(** Beside the bundle, the file system holds the bundle cut short after
    its first file, the bundle without its first file, and the bundle
    with its files in reverse order. *)
Definition files (path : string) : option bytes :=
  if String.eqb path "nbi_descriptor.pb" then Some [Byte.x0a]
  else if String.eqb path "truncated.pb" then Some [Byte.x0b]
  else if String.eqb path "headless.pb" then Some [Byte.x0c]
  else if String.eqb path "reversed.pb" then Some [Byte.x0d]
  else None.

Definition parse_bundle (data : bytes) : option (list FileDescriptorProto) :=
  match data with
  | [Byte.x0a] => Some bundle
  | [Byte.x0b] => Some (take 1 bundle)
  | [Byte.x0c] => Some (drop 1 bundle)
  | [Byte.x0d] => Some (reverse bundle)
  | _ => None
  end.

(** The pool has no objection to the content of the files. *)
Definition accepts (loaded : gmap string FileDescriptorProto) (fd : FileDescriptorProto)
  : bool := true.

(** Decodes the empty byte string only. *)
Definition stub_codec (A : Type) `{Layout A} : Codec A :=
  {| SerializeToString := fun _ => [];
     ParseFromString := fun _ data =>
       match data with
       | [] => Some new
       | _ => None
       end |}.

(** A snapshot with a platform that has a position and one that has
    none. *)
Definition sample_snapshot : ScenarioSnapshot.t :=
  {| ScenarioSnapshot.platforms :=
       [ PlatformDefinition.mk "platform-ground" "GROUND_STATION" 0
           (Some (Motion.mk (Some (PointAxes.mk (Some
              (Cartesian.mk (PyFloat.of_Z 6372000) (PyFloat.of_Z 0) (PyFloat.of_Z 0)))))));
         PlatformDefinition.mk "platform-sat" "SATELLITE" 0 None ];
     ScenarioSnapshot.nodes :=
       [ NetworkNode.mk "node-ground" "ROUTER"
           [ NetworkInterface.mk "if-ground"
               (Some (WirelessDevice.mk "platform-ground"
                        (Some (TransceiverModelId.mk "trx-ku")))) ] ];
     ScenarioSnapshot.links :=
       [ BidirectionalLink.mk "node-ground" "if-ground" "if-ground-rx"
           "node-sat" "if-sat" "if-sat-rx" ] |}.

Definition snapshot_codec : Codec ScenarioSnapshot.t :=
  {| SerializeToString := fun _ => [];
     ParseFromString := fun _ data =>
       match data with
       | [] => Some new
       | [Byte.x01] => Some sample_snapshot
       | _ => None
       end |}.

(** A service that accepts every request and serves [sample_snapshot]. *)
Definition serving (channel : Channel) (history : list Call) (call : Call) : Outcome :=
  if String.eqb (call_method call)
       "/aalyria.spacetime.api.nbi.v1alpha.ScenarioService/GetScenario"
  then Response [Byte.x01]
  else Response [].

(** No connection. *)
Definition unreachable (channel : Channel) (history : list Call) (call : Call) : Outcome :=
  Failure RpcTransportError.

(** A service that answers the first call and then sends bytes that are
    no message. *)
Definition garbling (channel : Channel) (history : list Call) (call : Call) : Outcome :=
  match history with
  | [] => Response []
  | _ => Response [Byte.xff]
  end.

Definition env_serving : Env :=
  {| read_bytes := files; parse_descriptor_set := parse_bundle;
     pool_accepts := accepts; transport := serving |}.

Definition env_unreachable : Env :=
  {| read_bytes := files; parse_descriptor_set := parse_bundle;
     pool_accepts := accepts; transport := unreachable |}.

Definition env_garbling : Env :=
  {| read_bytes := files; parse_descriptor_set := parse_bundle;
     pool_accepts := accepts; transport := garbling |}.

(** The command line with its defaults (the descriptor path is taken
    relative to the working directory). *)
Definition default_args : Namespace.t :=
  {| Namespace.endpoint := "localhost:50051";
     Namespace.transceiver_id := "trx-ku";
     Namespace.descriptor := "nbi_descriptor.pb";
     Namespace.timeout := PyFloat.of_Z 10;
     Namespace.skip_clear := false |}.

(** The same with [--skip-clear]. *)
Definition skip_clear_args : Namespace.t :=
  {| Namespace.endpoint := "localhost:50051";
     Namespace.transceiver_id := "trx-ku";
     Namespace.descriptor := "nbi_descriptor.pb";
     Namespace.timeout := PyFloat.of_Z 10;
     Namespace.skip_clear := true |}.

Definition start : World := {| calls := []; stdout := [] |}.

(** The client that [default_args] and the bundle give. *)
Definition pool : DescriptorPool.t :=
  match DynamicNBI.add_files env_serving bundle DescriptorPool.new with
  | inr pool => pool
  | inl _ => DescriptorPool.new
  end.

Definition client : DynamicNBI.t :=
  {| DynamicNBI.channel := insecure_channel "localhost:50051";
     DynamicNBI.timeout := PyFloat.of_Z 10;
     DynamicNBI.pool := pool;
     DynamicNBI.factory := MessageFactory.mk pool;
     DynamicNBI.PlatformDefinition :=
       {| DESCRIPTOR := {| full_name := "aalyria.spacetime.api.common.PlatformDefinition" |} |};
     DynamicNBI.NetworkNode :=
       {| DESCRIPTOR :=
            {| full_name := "aalyria.spacetime.api.nbi.v1alpha.resources.NetworkNode" |} |};
     DynamicNBI.NetworkInterface :=
       {| DESCRIPTOR :=
            {| full_name := "aalyria.spacetime.api.nbi.v1alpha.resources.NetworkInterface" |} |};
     DynamicNBI.BidirectionalLink :=
       {| DESCRIPTOR :=
            {| full_name := "aalyria.spacetime.api.nbi.v1alpha.resources.BidirectionalLink" |} |};
     DynamicNBI.TransceiverModelId :=
       {| DESCRIPTOR := {| full_name := "aalyria.spacetime.api.common.TransceiverModelId" |} |};
     DynamicNBI.ClearScenarioRequest :=
       {| DESCRIPTOR :=
            {| full_name := "aalyria.spacetime.api.nbi.v1alpha.ClearScenarioRequest" |} |};
     DynamicNBI.GetScenarioRequest :=
       {| DESCRIPTOR :=
            {| full_name := "aalyria.spacetime.api.nbi.v1alpha.GetScenarioRequest" |} |};
     DynamicNBI.ScenarioSnapshot :=
       {| DESCRIPTOR :=
            {| full_name := "aalyria.spacetime.api.nbi.v1alpha.ScenarioSnapshot" |} |};
     DynamicNBI.motion_unknown := 0 |}.

Definition ready : DynamicNBI.State :=
  {| DynamicNBI.self := client; DynamicNBI.world := start |}.

Definition run_main (env : Env) (args : Namespace.t) : (Exception + unit) * World :=
  main env (platform_codec := stub_codec _) (node_codec := stub_codec _)
    (link_codec := stub_codec _) (clear_codec := stub_codec _)
    (get_codec := stub_codec _) (snapshot_codec := snapshot_codec)
    (empty_codec := stub_codec _) args start.

End TestEnv.

(** ** What a run of the client looks like

    The vocabulary of the statements below: the call a method issues, the
    state it leaves, the value the call produces, and the calls of the
    driver. *)

(** The request messages, field by field. *)
Definition platform_message (motion_unknown : Z) (name typ : string)
  (coords : spec_float * spec_float * spec_float) : PlatformDefinition.t :=
  {| PlatformDefinition.name := name;
     PlatformDefinition.type := typ;
     PlatformDefinition.motion_source := motion_unknown;
     PlatformDefinition.has_coordinates :=
       Some (Motion.mk (Some (PointAxes.mk (Some
         (Cartesian.mk coords.1.1 coords.1.2 coords.2))))) |}.

Definition interface_message (platform_id iface_id transceiver_id : string)
  : NetworkInterface.t :=
  {| NetworkInterface.interface_id := iface_id;
     NetworkInterface.has_wireless :=
       Some {| WirelessDevice.platform := platform_id;
               WirelessDevice.has_transceiver_model_id :=
                 Some {| TransceiverModelId.transceiver_model_id := transceiver_id |} |} |}.

Definition node_message (node_id platform_id iface_id transceiver_id : string)
  : NetworkNode.t :=
  {| NetworkNode.node_id := node_id;
     NetworkNode.type := "ROUTER";
     NetworkNode.node_interface :=
       [interface_message platform_id iface_id transceiver_id] |}.

Definition link_message (a_node a_iface b_node b_iface : string) : BidirectionalLink.t :=
  {| BidirectionalLink.a_network_node_id := a_node;
     BidirectionalLink.a_tx_interface_id := a_iface;
     BidirectionalLink.a_rx_interface_id := a_iface;
     BidirectionalLink.b_network_node_id := b_node;
     BidirectionalLink.b_tx_interface_id := b_iface;
     BidirectionalLink.b_rx_interface_id := b_iface |}.

(** The line of [print_platforms] for one platform: the point is read
    through the message. *)
Definition platform_line (indent : string) (p : PlatformDefinition.t) : string :=
  let pt := PointAxes.point (Motion.ecef_fixed (PlatformDefinition.coordinates p)) in
  indent +:+ "- " +:+ PlatformDefinition.name p +:+ " ["
    +:+ PlatformDefinition.type p +:+ "] coords=("
    +:+ PyFloat.format_1f (Cartesian.x_m pt) +:+ ", "
    +:+ PyFloat.format_1f (Cartesian.y_m pt) +:+ ", "
    +:+ PyFloat.format_1f (Cartesian.z_m pt) +:+ ") m".

(** The line of [print_links] for one link. *)
Definition link_line (indent : string) (l : BidirectionalLink.t) : string :=
  indent +:+ "- " +:+ BidirectionalLink.a_network_node_id l +:+ "/"
    +:+ BidirectionalLink.a_tx_interface_id l +:+ " <-> "
    +:+ BidirectionalLink.b_network_node_id l +:+ "/"
    +:+ BidirectionalLink.b_tx_interface_id l.

(** The node and transmit-interface ids of the two ends of a link. *)
Definition endpoints (l : BidirectionalLink.t) : string * string * string * string :=
  (BidirectionalLink.a_network_node_id l, BidirectionalLink.a_tx_interface_id l,
   BidirectionalLink.b_network_node_id l, BidirectionalLink.b_tx_interface_id l).

(** The enum that [__init__] resolves. *)
Definition motion_source_enum : string :=
  "aalyria.spacetime.api.common.PlatformDefinition.MotionSource".

(** The message types that [__init__] resolves. *)
Definition required_messages : list string :=
  [ "aalyria.spacetime.api.common.PlatformDefinition";
    "aalyria.spacetime.api.nbi.v1alpha.resources.NetworkNode";
    "aalyria.spacetime.api.nbi.v1alpha.resources.NetworkInterface";
    "aalyria.spacetime.api.nbi.v1alpha.resources.BidirectionalLink";
    "aalyria.spacetime.api.common.TransceiverModelId";
    "aalyria.spacetime.api.nbi.v1alpha.ClearScenarioRequest";
    "aalyria.spacetime.api.nbi.v1alpha.GetScenarioRequest";
    "aalyria.spacetime.api.nbi.v1alpha.ScenarioSnapshot" ].

(** The call that a method of the client in state [s] hands to the
    channel. *)
Definition issued (s : DynamicNBI.State) (method : string) (request : bytes) : Call :=
  {| call_method := method;
     call_request := request;
     call_timeout := DynamicNBI.timeout (DynamicNBI.self s) |}.

(** The state once [call] has gone out: one more call, nothing else. *)
Definition sent (call : Call) (s : DynamicNBI.State) : DynamicNBI.State :=
  {| DynamicNBI.self := DynamicNBI.self s;
     DynamicNBI.world :=
       {| calls := calls (DynamicNBI.world s) ++ [call];
          stdout := stdout (DynamicNBI.world s) |} |}.

(** [data] deserializes into the fresh instance. *)
Definition decodes {A} `{Codec A} (fresh : A) (data : bytes) : bool :=
  match ParseFromString fresh data with
  | Some _ => true
  | None => false
  end.

(** The value of [call] on the channel after [history]: the response
    deserialized into the fresh instance [fresh] of the response type, or
    the failure of the call; a response that does not deserialize is a
    failure of the call. *)
Definition answer {Resp} `{Codec Resp} (env : Env) (channel : Channel)
  (history : list Call) (fresh : Resp) (call : Call) : Exception + Resp :=
  match transport env channel history call with
  | Response data =>
      match ParseFromString fresh data with
      | Some response => inr response
      | None => raise (RpcError deserializing_failed)
      end
  | Failure failure => raise (RpcError failure)
  end.

(** Why [call], made after [history], is not answered, if it is not:
    the call fails, or its response does not pass the check [ok]. *)
Definition refusal (env : Env) (channel : Channel) (history : list Call)
  (call : Call) (ok : bytes -> bool) : option Exception :=
  match transport env channel history call with
  | Response data => if ok data then None else Some (RpcError deserializing_failed)
  | Failure failure => Some (RpcError failure)
  end.

(** The service answers each call of [plan] in turn, from [history] on,
    with a response that passes the check that comes with the call. *)
Fixpoint served (env : Env) (channel : Channel) (history : list Call)
  (plan : list (Call * (bytes -> bool))) : bool :=
  match plan with
  | [] => true
  | (call, ok) :: plan =>
      match transport env channel history call with
      | Response data => ok data && served env channel (history ++ [call]) plan
      | Failure _ => false
      end
  end.

(** Making the calls of [plan] in turn until one is not answered: the
    exception of that call, if any, and the calls made. *)
Fixpoint run_plan (env : Env) (channel : Channel) (history : list Call)
  (plan : list (Call * (bytes -> bool))) : option Exception * list Call :=
  match plan with
  | [] => (None, [])
  | step :: plan =>
      match refusal env channel history step.1 step.2 with
      | Some e => (Some e, [step.1])
      | None =>
          ((run_plan env channel (history ++ [step.1]) plan).1,
           step.1 :: (run_plan env channel (history ++ [step.1]) plan).2)
      end
  end.

(** The rest of a run, which ends in [out], follows [plan] from
    [history] on: it ends with the exception of the first call that is
    not answered, or normally; it has made the calls of the plan up to
    that call; stopped, it has left standard output as it was,
    [stdout0]; at its end, [finished] holds. *)
Definition follows (env : Env) (channel : Channel) (stdout0 : list string)
  (history : list Call) (plan : list (Call * (bytes -> bool)))
  (finished : (Exception + unit) * DynamicNBI.State -> Prop)
  (out : (Exception + unit) * DynamicNBI.State) : Prop :=
  out.1 = match (run_plan env channel history plan).1 with
          | None => inr tt
          | Some e => inl e
          end /\
  calls (DynamicNBI.world out.2) = history ++ (run_plan env channel history plan).2 /\
  ((run_plan env channel history plan).1 <> None ->
   stdout (DynamicNBI.world out.2) = stdout0) /\
  ((run_plan env channel history plan).1 = None -> finished out).

Section DriverCalls.
Context {platform_codec : Codec PlatformDefinition.t}
        {node_codec : Codec NetworkNode.t}
        {link_codec : Codec BidirectionalLink.t}
        {clear_codec : Codec ClearScenarioRequest.t}
        {get_codec : Codec GetScenarioRequest.t}
        {snapshot_codec : Codec ScenarioSnapshot.t}
        {empty_codec : Codec empty_pb2.Empty.t}.

Definition driver_call (args : Namespace.t) (method : string) (request : bytes) : Call :=
  {| call_method := method;
     call_request := request;
     call_timeout := Namespace.timeout args |}.

Definition clear_scenario_call (args : Namespace.t) : Call :=
  driver_call args "/aalyria.spacetime.api.nbi.v1alpha.ScenarioService/ClearScenario"
    (SerializeToString ClearScenarioRequest.new).

Definition get_scenario_call (args : Namespace.t) : Call :=
  driver_call args "/aalyria.spacetime.api.nbi.v1alpha.ScenarioService/GetScenario"
    (SerializeToString GetScenarioRequest.new).

(** The calls of the driver after the optional clear-scenario call, each
    with the check that its response decodes into the class the client
    resolved for it. *)
Definition build_plan (args : Namespace.t) (client : DynamicNBI.t)
  : list (Call * (bytes -> bool)) :=
  [ (driver_call args "/aalyria.spacetime.api.nbi.v1alpha.PlatformService/CreatePlatform"
       (SerializeToString (platform_message (DynamicNBI.motion_unknown client)
          "platform-ground" "GROUND_STATION"
          (PyFloat.of_Z 6372000, PyFloat.of_Z 0, PyFloat.of_Z 0))),
     decodes PlatformDefinition.new);
    (driver_call args "/aalyria.spacetime.api.nbi.v1alpha.PlatformService/CreatePlatform"
       (SerializeToString (platform_message (DynamicNBI.motion_unknown client)
          "platform-sat" "SATELLITE"
          (PyFloat.of_Z 6871000, PyFloat.of_Z 0, PyFloat.of_Z 0))),
     decodes PlatformDefinition.new);
    (driver_call args "/aalyria.spacetime.api.nbi.v1alpha.NetworkNodeService/CreateNode"
       (SerializeToString (node_message "node-ground" "platform-ground" "if-ground"
          (Namespace.transceiver_id args))),
     decodes NetworkNode.new);
    (driver_call args "/aalyria.spacetime.api.nbi.v1alpha.NetworkNodeService/CreateNode"
       (SerializeToString (node_message "node-sat" "platform-sat" "if-sat"
          (Namespace.transceiver_id args))),
     decodes NetworkNode.new);
    (driver_call args "/aalyria.spacetime.api.nbi.v1alpha.NetworkLinkService/CreateLink"
       (SerializeToString (link_message "node-ground" "if-ground" "node-sat" "if-sat")),
     decodes BidirectionalLink.new);
    (get_scenario_call args, decodes ScenarioSnapshot.new) ].

Definition driver_plan (args : Namespace.t) (client : DynamicNBI.t)
  : list (Call * (bytes -> bool)) :=
  (if Namespace.skip_clear args then []
   else [(clear_scenario_call args, decodes empty_pb2.Empty.new)])
  ++ build_plan args client.

Definition driver_calls (args : Namespace.t) (client : DynamicNBI.t) : list Call :=
  (driver_plan args client).*1.

(** What the driver prints for [snapshot]. *)
Definition printed (snapshot : ScenarioSnapshot.t) (stdout : list string) : list string :=
  print_links (ScenarioSnapshot.links snapshot) "  "
    (print_nodes (ScenarioSnapshot.nodes snapshot) "  "
       (print_platforms (ScenarioSnapshot.platforms snapshot) "  "
          (print (LF +:+ "Scenario snapshot:") stdout))).

End DriverCalls.

(** The driver and the clear-scenario wrapper under the test doubles. *)
Module TestRun.

Definition expected_calls : list Call :=
  driver_calls (platform_codec := TestEnv.stub_codec _) (node_codec := TestEnv.stub_codec _)
    (link_codec := TestEnv.stub_codec _) (clear_codec := TestEnv.stub_codec _)
    (get_codec := TestEnv.stub_codec _) (snapshot_codec := TestEnv.snapshot_codec)
    (empty_codec := TestEnv.stub_codec _) TestEnv.default_args TestEnv.client.

Definition clear_scenario : M DynamicNBI.State unit :=
  DynamicNBI.clear_scenario TestEnv.env_serving
    (clear_codec := TestEnv.stub_codec _) (empty_codec := TestEnv.stub_codec _).

(** The call that [clear_scenario] makes, by itself. *)
Definition clear_scenario_call : M DynamicNBI.State empty_pb2.Empty.t :=
  DynamicNBI._unary TestEnv.env_serving (req_codec := TestEnv.stub_codec _)
    (resp_codec := TestEnv.stub_codec _)
    "/aalyria.spacetime.api.nbi.v1alpha.ScenarioService/ClearScenario"
    ClearScenarioRequest.new empty_pb2_Empty.

(** Two links with the same ends and other receive interfaces. *)
Definition links : list BidirectionalLink.t :=
  [ BidirectionalLink.mk "node-ground" "if-ground" "if-ground" "node-sat" "if-sat" "if-sat" ].

Definition links_other_rx : list BidirectionalLink.t :=
  [ BidirectionalLink.mk "node-ground" "if-ground" "rx-0" "node-sat" "if-sat" "rx-1" ].

End TestRun.

(** ** Further vocabulary: printers, construction, the flag *)

(** The lines of [print_nodes] for one node: its own line, then one line
    per interface. *)
Definition interface_line (indent : string) (iface : NetworkInterface.t) : string :=
  indent +:+ "  interface " +:+ NetworkInterface.interface_id iface
    +:+ " platform=" +:+ WirelessDevice.platform (NetworkInterface.wireless iface)
    +:+ " trx="
    +:+ TransceiverModelId.transceiver_model_id
          (WirelessDevice.transceiver_model_id (NetworkInterface.wireless iface)).

Definition node_lines (indent : string) (n : NetworkNode.t) : list string :=
  (indent +:+ "- " +:+ NetworkNode.node_id n +:+ " [" +:+ NetworkNode.type n +:+ "]")
    :: map (interface_line indent) (NetworkNode.node_interface n).

(** The number of interfaces of all nodes. *)
Definition interface_count (nodes : list NetworkNode.t) : nat :=
  foldr (fun n k => length (NetworkNode.node_interface n) + k) 0 nodes.

(** Some file of the bundle declares a message type under [name]. *)
Definition declares (fds : list FileDescriptorProto) (name : string) : Prop :=
  exists fd d, fd ∈ fds /\ d ∈ message_types fd /\ full_name d = name.

(** Some file of the bundle declares an enum type under [name]. *)
Definition declares_enum (fds : list FileDescriptorProto) (name : string) : Prop :=
  exists fd e, fd ∈ fds /\ e ∈ enum_types fd /\ enum_full_name e = name.

(** The pool has loaded the file [fd]. *)
Definition holds (pool : DescriptorPool.t) (fd : FileDescriptorProto) : Prop :=
  DescriptorPool.files pool !! file_name fd = Some fd.

(** The tables of the pool agree with the files it has loaded: a file is
    kept under its name, a name is bound to a type exactly when a loaded
    file declares the type under that name, and the imports of a loaded
    file are loaded. *)
Definition consistent (pool : DescriptorPool.t) : Prop :=
  (forall k fd, DescriptorPool.files pool !! k = Some fd -> file_name fd = k) /\
  (forall name d,
     DescriptorPool.messages pool !! name = Some d <->
     full_name d = name /\ exists fd, holds pool fd /\ d ∈ message_types fd) /\
  (forall name e,
     DescriptorPool.enums pool !! name = Some e <->
     enum_full_name e = name /\ exists fd, holds pool fd /\ e ∈ enum_types fd) /\
  (forall fd dep,
     holds pool fd -> dep ∈ dependency fd ->
     is_Some (DescriptorPool.files pool !! dep)).

(** The pool holds what [__init__] resolves: the eight message types and
    the enum with its value [UNKNOWN_SOURCE]. *)
Definition complete (pool : DescriptorPool.t) : Prop :=
  (forall name, name ∈ required_messages ->
     is_Some (DescriptorPool.messages pool !! name)) /\
  exists e, DescriptorPool.enums pool !! motion_source_enum = Some e /\
            is_Some (values_by_name e !! "UNKNOWN_SOURCE").

(** The message classes of a client, each with the name under which
    [__init__] resolves it. *)
Definition resolved_classes (client : DynamicNBI.t) : list (string * Descriptor) :=
  [ ("aalyria.spacetime.api.common.PlatformDefinition",
     DESCRIPTOR (DynamicNBI.PlatformDefinition client));
    ("aalyria.spacetime.api.nbi.v1alpha.resources.NetworkNode",
     DESCRIPTOR (DynamicNBI.NetworkNode client));
    ("aalyria.spacetime.api.nbi.v1alpha.resources.NetworkInterface",
     DESCRIPTOR (DynamicNBI.NetworkInterface client));
    ("aalyria.spacetime.api.nbi.v1alpha.resources.BidirectionalLink",
     DESCRIPTOR (DynamicNBI.BidirectionalLink client));
    ("aalyria.spacetime.api.common.TransceiverModelId",
     DESCRIPTOR (DynamicNBI.TransceiverModelId client));
    ("aalyria.spacetime.api.nbi.v1alpha.ClearScenarioRequest",
     DESCRIPTOR (DynamicNBI.ClearScenarioRequest client));
    ("aalyria.spacetime.api.nbi.v1alpha.GetScenarioRequest",
     DESCRIPTOR (DynamicNBI.GetScenarioRequest client));
    ("aalyria.spacetime.api.nbi.v1alpha.ScenarioSnapshot",
     DESCRIPTOR (DynamicNBI.ScenarioSnapshot client)) ].

(** The command line [args] with [--skip-clear] added. *)
Definition with_skip_clear (args : Namespace.t) : Namespace.t :=
  {| Namespace.endpoint := Namespace.endpoint args;
     Namespace.transceiver_id := Namespace.transceiver_id args;
     Namespace.descriptor := Namespace.descriptor args;
     Namespace.timeout := Namespace.timeout args;
     Namespace.skip_clear := true |}.

(** * The PDF text extractor (extract_pdf.py)

    The script imports pypdf, opens the file named by its first argument,
    concatenates the text of the pages, each followed by a line feed, and
    prints the result; any exception on the way, that of [print]
    included, is reported on standard error and the script exits with
    status 1. An exception is represented by its message, [str(e)].
    While it reads, pypdf may log warnings, which go to standard error
    too. *)

Module extract_pdf.

Definition Error : Type := string.

(** What [page.extract_text()] does: the lines it logs, and the text it
    returns or the exception it raises. *)
Record Page := {
  page_log : list string;
  page_text : Error + string
}.

(** What the script uses from outside: the import of pypdf, the string
    form of a path, the reader (the lines it logs while it opens the
    file and lists the pages, and the pages or the exception it raises),
    and [print] on standard output, which raises when the output cannot
    take the text and then has written nothing. *)
Record Env := {
  import_pypdf : Error + unit;
  path_str : string -> string;
  PdfReader : string -> list string * (Error + list Page);
  print_text : string -> Error + unit
}.

(** How the process ends. *)
Record Exit := {
  stdout : list string;
  stderr : list string;
  status : Z
}.

(** The loop over [reader.pages], from the text gathered and the lines
    logged so far. *)
Fixpoint extract_pages (text : string) (log : list string) (pages : list Page)
  : list string * (Error + string) :=
  match pages with
  | [] => (log, inr text)
  | page :: pages =>
      match page_text page with
      | inl e => (log ++ page_log page, inl e)
      | inr t => extract_pages (text +:+ (t +:+ LF)) (log ++ page_log page) pages
      end
  end.

(** The body of the [try], up to [print]: [sys.argv[1]] raises
    [IndexError] when the script has no argument. *)
Definition extract (env : Env) (argv : list string) : list string * (Error + string) :=
  match import_pypdf env with
  | inl e => ([], inl e)
  | inr _ =>
      match argv !! 1 with
      | None => ([], inl "list index out of range")
      | Some arg =>
          let pdf_path := arg in
          match PdfReader env (path_str env pdf_path) with
          | (log, inl e) => (log, inl e)
          | (log, inr pages) => extract_pages "" log pages
          end
      end
  end.

Definition failed (log : list string) (e : Error) : Exit :=
  {| stdout := []; stderr := log ++ ["ERROR: " +:+ e]; status := 1 |}.

Definition script (env : Env) (argv : list string) : Exit :=
  match extract env argv with
  | (log, inr text) =>
      match print_text env text with
      | inr _ => {| stdout := [text]; stderr := log; status := 0 |}
      | inl e => failed log e
      end
  | (log, inl e) => failed log e
  end.

(** A reader for tests: [ok.pdf] has two pages and a warning on the
    second, [torn.pdf] fails on its second page of three, any other file
    cannot be opened; a text with a page [<?>] cannot be printed. *)
Definition test_env : Env :=
  {| import_pypdf := inr tt;
     path_str := fun p => p;
     PdfReader := fun p =>
       if String.eqb p "ok.pdf"
       then (["incorrect startxref pointer(1)"],
             inr [ {| page_log := []; page_text := inr "one" |};
                   {| page_log := ["impossible to decode XFormObject"];
                      page_text := inr "two" |} ])
       else if String.eqb p "torn.pdf"
       then ([], inr [ {| page_log := []; page_text := inr "one" |};
                       {| page_log := ["bad xref"]; page_text := inl "bad page" |};
                       {| page_log := []; page_text := inr "three" |} ])
       else if String.eqb p "odd.pdf"
       then ([], inr [ {| page_log := []; page_text := inr "<?>" |} ])
       else ([], inl "no such file");
     print_text := fun text =>
       if String.eqb text ("<?>" +:+ LF) then inl "codec can't encode character"
       else inr tt |}.

End extract_pdf.

(** More test data: a node without interfaces and a node with an
    interface whose wireless part was never set. *)
Module TestMore.

Definition nodes : list NetworkNode.t :=
  [ NetworkNode.mk "node-a" "ROUTER" [];
    NetworkNode.mk "node-b" "ROUTER"
      [ NetworkInterface.mk "if-0" None;
        NetworkInterface.mk "if-1"
          (Some (WirelessDevice.mk "platform-b" (Some (TransceiverModelId.mk "trx-ku")))) ] ].

Definition main_serving (args : Namespace.t) (w : World) : (Exception + unit) * World :=
  main TestEnv.env_serving (platform_codec := TestEnv.stub_codec _)
    (node_codec := TestEnv.stub_codec _) (link_codec := TestEnv.stub_codec _)
    (clear_codec := TestEnv.stub_codec _) (get_codec := TestEnv.stub_codec _)
    (snapshot_codec := TestEnv.snapshot_codec) (empty_codec := TestEnv.stub_codec _)
    args w.

Definition clear_call : Call :=
  clear_scenario_call (clear_codec := TestEnv.stub_codec _) TestEnv.default_args.

(** A command line that names a descriptor file that is not there, and
    an environment in which every file holds bytes that are no bundle. *)
Definition missing_args : Namespace.t :=
  {| Namespace.endpoint := "localhost:50051";
     Namespace.transceiver_id := "trx-ku";
     Namespace.descriptor := "missing.pb";
     Namespace.timeout := PyFloat.of_Z 10;
     Namespace.skip_clear := false |}.

Definition env_garbled : Env :=
  {| read_bytes := fun _ => Some [Byte.x00];
     parse_descriptor_set := TestEnv.parse_bundle;
     pool_accepts := TestEnv.accepts;
     transport := TestEnv.serving |}.

(** The pool loaded from the bundle cut short. *)
Definition pool_truncated : DescriptorPool.t :=
  match DynamicNBI.add_files TestEnv.env_serving (take 1 TestEnv.bundle) DescriptorPool.new with
  | inr pool => pool
  | inl _ => DescriptorPool.new
  end.

Definition main_garbled (args : Namespace.t) (w : World) : (Exception + unit) * World :=
  main env_garbled (platform_codec := TestEnv.stub_codec _)
    (node_codec := TestEnv.stub_codec _) (link_codec := TestEnv.stub_codec _)
    (clear_codec := TestEnv.stub_codec _) (get_codec := TestEnv.stub_codec _)
    (snapshot_codec := TestEnv.snapshot_codec) (empty_codec := TestEnv.stub_codec _)
    args w.

End TestMore.

(** ** Runs of the methods *)

Section Runs.
Context (env : Env).
Context {platform_codec : Codec PlatformDefinition.t}
        {node_codec : Codec NetworkNode.t}
        {link_codec : Codec BidirectionalLink.t}
        {clear_codec : Codec ClearScenarioRequest.t}
        {get_codec : Codec GetScenarioRequest.t}
        {snapshot_codec : Codec ScenarioSnapshot.t}
        {empty_codec : Codec empty_pb2.Empty.t}.

(** One step of a computation. *)
Lemma bind_run {S A B} (m : M S A) (f : A -> M S B) (s : S) :
  (m ≫= f) s =
  match m s with
  | (inl e, s') => (inl e, s')
  | (inr x, s') => f x s'
  end.
Proof. reflexivity. Qed.

(** [_unary] hands one call to the channel and returns its value. *)
Lemma unary_run {Req Resp} {req_codec : Codec Req} {resp_layout : Layout Resp}
  {resp_codec : Codec Resp} (method : string) (request : Req)
  (response_cls : MessageClass Resp) (s : DynamicNBI.State) :
  let call := issued s method (SerializeToString request) in
  DynamicNBI._unary env method request response_cls s =
  (answer env (DynamicNBI.channel (DynamicNBI.self s)) (calls (DynamicNBI.world s))
     (new : Resp) call,
   sent call s).
Proof.
  destruct s as [self [cs out]].
  cbv [DynamicNBI._unary mbind M_bind DynamicNBI.get_self DynamicNBI.in_world
       unary_unary answer issued sent DynamicNBI._parse instantiate].
  cbn. destruct (transport env _ _ _) as [data | failure]; [| reflexivity].
  destruct (ParseFromString new data); reflexivity.
Qed.

Lemma clear_scenario_run (s : DynamicNBI.State) :
  let call :=
    issued s "/aalyria.spacetime.api.nbi.v1alpha.ScenarioService/ClearScenario"
      (SerializeToString ClearScenarioRequest.new) in
  DynamicNBI.clear_scenario env s =
  (answer env (DynamicNBI.channel (DynamicNBI.self s)) (calls (DynamicNBI.world s))
     empty_pb2.Empty.new call ≫= (fun _ => inr tt),
   sent call s).
Proof.
  cbn zeta. unfold DynamicNBI.clear_scenario.
  rewrite bind_run. cbn [DynamicNBI.get_self]. rewrite bind_run, unary_run.
  cbn zeta. destruct (answer _ _ _ _ _); reflexivity.
Qed.

Lemma create_platform_run (name typ : string)
  (coords : spec_float * spec_float * spec_float) (s : DynamicNBI.State) :
  DynamicNBI.create_platform env name typ coords s =
  DynamicNBI._unary env
    "/aalyria.spacetime.api.nbi.v1alpha.PlatformService/CreatePlatform"
    (platform_message (DynamicNBI.motion_unknown (DynamicNBI.self s)) name typ coords)
    (DynamicNBI.PlatformDefinition (DynamicNBI.self s)) s.
Proof. reflexivity. Qed.

Lemma create_node_run (node_id platform_id iface_id transceiver_id : string)
  (s : DynamicNBI.State) :
  DynamicNBI.create_node env node_id platform_id iface_id transceiver_id s =
  DynamicNBI._unary env
    "/aalyria.spacetime.api.nbi.v1alpha.NetworkNodeService/CreateNode"
    (node_message node_id platform_id iface_id transceiver_id)
    (DynamicNBI.NetworkNode (DynamicNBI.self s)) s.
Proof. reflexivity. Qed.

Lemma create_link_run (a_node a_iface b_node b_iface : string) (s : DynamicNBI.State) :
  DynamicNBI.create_link env a_node a_iface b_node b_iface s =
  DynamicNBI._unary env
    "/aalyria.spacetime.api.nbi.v1alpha.NetworkLinkService/CreateLink"
    (link_message a_node a_iface b_node b_iface)
    (DynamicNBI.BidirectionalLink (DynamicNBI.self s)) s.
Proof. reflexivity. Qed.

Lemma get_scenario_run (s : DynamicNBI.State) :
  DynamicNBI.get_scenario env s =
  DynamicNBI._unary env
    "/aalyria.spacetime.api.nbi.v1alpha.ScenarioService/GetScenario"
    GetScenarioRequest.new
    (DynamicNBI.ScenarioSnapshot (DynamicNBI.self s)) s.
Proof. reflexivity. Qed.

End Runs.

(** ** Loading the bundle *)

(** A table extended by the entries of a file, which are new to it. *)
Lemma keyed_union_lookup {V} (key : V -> string) (xs : list V) (m : gmap string V)
  (name : string) (v : V) :
  NoDup (map key xs) ->
  (forall x, x ∈ xs -> m !! key x = None) ->
  (list_to_map (map (fun x => (key x, x)) xs) ∪ m) !! name = Some v <->
  (v ∈ xs /\ key v = name) \/ m !! name = Some v.
Proof.
  intros Hnodup Hfresh.
  assert (Hkeys : NoDup (map (fun x => (key x, x)) xs).*1).
  { assert (Heq : (map (fun x => (key x, x)) xs).*1 = map key xs).
    { clear. induction xs as [| x xs IH]; [done |]. cbn. by rewrite IH. }
    by rewrite Heq. }
  assert (Hin : forall k x,
    list_to_map (M := gmap string V) (map (fun x => (key x, x)) xs) !! k = Some x <->
    x ∈ xs /\ key x = k).
  { intros k x. rewrite <- (elem_of_list_to_map _ _ _ Hkeys). split.
    - intros Hx. apply list_elem_of_fmap in Hx as (y & [= -> ->] & Hy). done.
    - intros [Hx <-]. apply list_elem_of_fmap. by exists x. }
  rewrite lookup_union_Some_raw. split.
  - intros [Hl | [_ Hm]]; [left; by apply Hin | by right].
  - intros [Hx | Hm]; [left; by apply Hin |]. right. split; [| done].
    destruct (list_to_map (map (fun x => (key x, x)) xs) !! name) as [x |] eqn:Hx;
      [| done].
    apply Hin in Hx as [Hx <-]. rewrite (Hfresh x Hx) in Hm. discriminate.
Qed.

Section Loading.
Context (accepts : gmap string FileDescriptorProto -> FileDescriptorProto -> bool).

(** [Add] keeps the pool consistent and loads the file. *)
Lemma Add_consistent (fd : FileDescriptorProto) (pool pool' : DescriptorPool.t) :
  DescriptorPool.Add accepts fd pool = inr pool' ->
  consistent pool ->
  consistent pool' /\ (forall fd', holds pool' fd' <-> holds pool fd' \/ fd' = fd).
Proof.
  intros Hadd (Hname & Hmsg & Henum & Hdeps). unfold DescriptorPool.Add in Hadd.
  destruct (DescriptorPool.files pool !! file_name fd) as [loaded |] eqn:Hfile.
  - destruct (decide (loaded = fd)) as [-> |]; [| discriminate].
    injection Hadd as <-. split; [done |]. intros fd'. split; [by left |].
    intros [H | ->]; done.
  - destruct (DescriptorPool.buildable accepts fd pool) eqn:Hbuild; [| discriminate].
    injection Hadd as <-. unfold DescriptorPool.buildable in Hbuild.
    apply andb_prop in Hbuild as [Hbuild _].
    apply andb_prop in Hbuild as [Hbuild Hnew].
    apply andb_prop in Hbuild as [Himports Hnodup].
    apply bool_decide_eq_true in Hnodup. unfold DescriptorPool.symbols in Hnodup.
    apply NoDup_app in Hnodup as (Hnodup_m & _ & Hnodup_e).
    assert (Hfresh : forall name, name ∈ DescriptorPool.symbols fd ->
      DescriptorPool.messages pool !! name = None /\
      DescriptorPool.enums pool !! name = None).
    { intros name Hin. rewrite forallb_forall in Hnew.
      specialize (Hnew name (proj1 (list_elem_of_In _ _) Hin)).
      unfold DescriptorPool.defines in Hnew.
      apply negb_true_iff, orb_false_elim in Hnew as [Hm He].
      apply bool_decide_eq_false in Hm, He.
      split; [by destruct (DescriptorPool.messages pool !! name); [destruct Hm |]
             | by destruct (DescriptorPool.enums pool !! name); [destruct He |]]. }
    assert (Hholds : forall fd',
      holds (DescriptorPool.mk (<[file_name fd := fd]> (DescriptorPool.files pool))
               (list_to_map (map (fun d => (full_name d, d)) (message_types fd))
                  ∪ DescriptorPool.messages pool)
               (list_to_map (map (fun e => (enum_full_name e, e)) (enum_types fd))
                  ∪ DescriptorPool.enums pool)) fd'
      <-> holds pool fd' \/ fd' = fd).
    { intros fd'. unfold holds. cbn. rewrite lookup_insert_Some. split.
      - intros [[_ ->] | [_ H]]; [by right | by left].
      - intros [H | ->]; [| by left]. right. split; [| done].
        intros Heq. rewrite <- Heq in H. rewrite Hfile in H. discriminate. }
    split; [| exact Hholds]. split; [| split; [| split]].
    + cbn. intros k fd'. rewrite lookup_insert_Some.
      intros [[<- <-] | [_ H]]; [done | by apply Hname].
    + cbn. intros name d.
      rewrite (keyed_union_lookup full_name); [| done |].
      * rewrite Hmsg. split.
        -- intros [[Hd Hn] | [Hn (fd' & Hfd' & Hd)]].
           ++ split; [done |]. exists fd. split; [apply Hholds; by right | done].
           ++ split; [done |]. exists fd'. split; [apply Hholds; by left | done].
        -- intros [Hn (fd' & Hfd' & Hd)]. apply Hholds in Hfd' as [Hfd' | ->].
           ++ right. split; [done |]. by exists fd'.
           ++ by left.
      * intros d' Hd'. apply Hfresh. unfold DescriptorPool.symbols.
        apply elem_of_app. left. apply list_elem_of_fmap. by exists d'.
    + cbn. intros name e.
      rewrite (keyed_union_lookup enum_full_name); [| done |].
      * rewrite Henum. split.
        -- intros [[He Hn] | [Hn (fd' & Hfd' & He)]].
           ++ split; [done |]. exists fd. split; [apply Hholds; by right | done].
           ++ split; [done |]. exists fd'. split; [apply Hholds; by left | done].
        -- intros [Hn (fd' & Hfd' & He)]. apply Hholds in Hfd' as [Hfd' | ->].
           ++ right. split; [done |]. by exists fd'.
           ++ by left.
      * intros e' He'. apply Hfresh. unfold DescriptorPool.symbols.
        apply elem_of_app. right. apply list_elem_of_fmap. by exists e'.
    + intros fd' dep Hfd' Hdep. cbn. apply lookup_insert_is_Some'.
      apply Hholds in Hfd' as [Hfd' | ->].
      * right. by apply (Hdeps fd').
      * right. rewrite forallb_forall in Himports.
        specialize (Himports dep (proj1 (list_elem_of_In _ _) Hdep)).
        by apply bool_decide_eq_true in Himports.
Qed.

(** [Add] raises nothing but [TypeError]. *)
Lemma Add_raises (fd : FileDescriptorProto) (pool : DescriptorPool.t) (e : Exception) :
  DescriptorPool.Add accepts fd pool = inl e -> e = TypeError (file_name fd).
Proof.
  unfold DescriptorPool.Add.
  destruct (DescriptorPool.files pool !! file_name fd) as [loaded |].
  - destruct (decide (loaded = fd)); [discriminate | by intros [= <-]].
  - destruct (DescriptorPool.buildable accepts fd pool); [discriminate | by intros [= <-]].
Qed.

End Loading.

Lemma consistent_new : consistent DescriptorPool.new.
Proof.
  unfold consistent, holds. cbn. split; [| split; [| split]].
  - intros k fd. by rewrite lookup_empty.
  - intros name d. rewrite lookup_empty. split; [done |].
    intros [_ (fd & H & _)]. by rewrite lookup_empty in H.
  - intros name e. rewrite lookup_empty. split; [done |].
    intros [_ (fd & H & _)]. by rewrite lookup_empty in H.
  - intros fd dep H. by rewrite lookup_empty in H.
Qed.

Section Bundle.
Context (env : Env).

(** The loop keeps the pool consistent and loads the files of the bundle. *)
Lemma add_files_consistent (fds : list FileDescriptorProto) (pool pool' : DescriptorPool.t) :
  DynamicNBI.add_files env fds pool = inr pool' ->
  consistent pool ->
  consistent pool' /\ (forall fd, holds pool' fd <-> holds pool fd \/ fd ∈ fds).
Proof.
  revert pool. induction fds as [| fd fds IH]; intros pool; cbn [DynamicNBI.add_files].
  - intros [= <-] Hpool. split; [done |]. intros fd. split; [by left |].
    intros [H | H]; [done | by apply elem_of_nil in H].
  - destruct (DescriptorPool.Add (pool_accepts env) fd pool) as [e | pool1] eqn:Hadd;
      [discriminate |].
    cbn. intros Hrest Hpool.
    destruct (Add_consistent _ _ _ _ Hadd Hpool) as [Hpool1 Hholds1].
    destruct (IH _ Hrest Hpool1) as [Hpool' Hholds']. split; [done |].
    intros fd'. rewrite Hholds', Hholds1, elem_of_cons. tauto.
Qed.

Lemma add_files_raises (fds : list FileDescriptorProto) (pool : DescriptorPool.t)
  (e : Exception) :
  DynamicNBI.add_files env fds pool = inl e -> exists file, e = TypeError file.
Proof.
  revert pool. induction fds as [| fd fds IH]; intros pool; cbn [DynamicNBI.add_files];
    [discriminate |].
  destruct (DescriptorPool.Add (pool_accepts env) fd pool) as [e' | pool1] eqn:Hadd; cbn.
  - intros [= <-]. eexists. by apply (Add_raises _ _ _ _ Hadd).
  - apply IH.
Qed.

(** The tables of the pool that the loop fills from the empty pool: a
    name is bound to a type exactly when a file of the bundle declares
    the type under that name. *)
Lemma loaded_tables (fds : list FileDescriptorProto) (pool : DescriptorPool.t) :
  DynamicNBI.add_files env fds DescriptorPool.new = inr pool ->
  consistent pool /\
  (forall name d,
     DescriptorPool.messages pool !! name = Some d <->
     full_name d = name /\ exists fd, fd ∈ fds /\ d ∈ message_types fd) /\
  (forall name e,
     DescriptorPool.enums pool !! name = Some e <->
     enum_full_name e = name /\ exists fd, fd ∈ fds /\ e ∈ enum_types fd).
Proof.
  intros Hload.
  destruct (add_files_consistent _ _ _ Hload consistent_new) as [Hpool Hholds].
  assert (Hfds : forall fd, holds pool fd <-> fd ∈ fds).
  { intros fd. rewrite Hholds. unfold holds at 1. cbn. rewrite lookup_empty.
    split; [by intros [? | ?] | by right]. }
  split; [done |]. destruct Hpool as (_ & Hmsg & Henum & _). split.
  - intros name d. rewrite Hmsg. split.
    + intros [Hn (fd & Hfd & Hd)]. split; [done |]. exists fd. by rewrite <- Hfds.
    + intros [Hn (fd & Hfd & Hd)]. split; [done |]. exists fd. by rewrite Hfds.
  - intros name e. rewrite Henum. split.
    + intros [Hn (fd & Hfd & He)]. split; [done |]. exists fd. by rewrite <- Hfds.
    + intros [Hn (fd & Hfd & He)]. split; [done |]. exists fd. by rewrite Hfds.
Qed.

End Bundle.

(** ** The schema registry *)

Section Registry.
Context (env : Env).

(** The construction, once the bundle is read, decoded and loaded. *)
Lemma init_loaded (channel : Channel) (path : string) (timeout : spec_float)
  (data : bytes) (fds : list FileDescriptorProto) (pool : DescriptorPool.t) :
  read_bytes env path = Some data ->
  parse_descriptor_set env data = Some fds ->
  DynamicNBI.add_files env fds DescriptorPool.new = inr pool ->
  DynamicNBI.__init__ env channel path timeout =
  (let factory := MessageFactory.mk pool in
   PlatformDefinition ← DynamicNBI._msg pool factory "aalyria.spacetime.api.common.PlatformDefinition";
   NetworkNode ← DynamicNBI._msg pool factory "aalyria.spacetime.api.nbi.v1alpha.resources.NetworkNode";
   NetworkInterface ← DynamicNBI._msg pool factory "aalyria.spacetime.api.nbi.v1alpha.resources.NetworkInterface";
   BidirectionalLink ← DynamicNBI._msg pool factory "aalyria.spacetime.api.nbi.v1alpha.resources.BidirectionalLink";
   TransceiverModelId ← DynamicNBI._msg pool factory "aalyria.spacetime.api.common.TransceiverModelId";
   ClearScenarioRequest ← DynamicNBI._msg pool factory "aalyria.spacetime.api.nbi.v1alpha.ClearScenarioRequest";
   GetScenarioRequest ← DynamicNBI._msg pool factory "aalyria.spacetime.api.nbi.v1alpha.GetScenarioRequest";
   ScenarioSnapshot ← DynamicNBI._msg pool factory "aalyria.spacetime.api.nbi.v1alpha.ScenarioSnapshot";
   motion_enum ← DescriptorPool.FindEnumTypeByName pool motion_source_enum;
   unknown_source ← getitem (values_by_name motion_enum) "UNKNOWN_SOURCE";
   mret (DynamicNBI.mk channel timeout pool factory PlatformDefinition NetworkNode
           NetworkInterface BidirectionalLink TransceiverModelId ClearScenarioRequest
           GetScenarioRequest ScenarioSnapshot (number unknown_source))).
Proof.
  intros Hread Hparse Hload. unfold DynamicNBI.__init__. rewrite Hread. cbn.
  rewrite Hparse. cbn. rewrite Hload. reflexivity.
Qed.

(** What the construction went through when it returns a client. *)
Lemma init_inr (channel : Channel) (path : string) (timeout : spec_float)
  (client : DynamicNBI.t) :
  DynamicNBI.__init__ env channel path timeout = inr client ->
  exists data fds pool,
    read_bytes env path = Some data /\
    parse_descriptor_set env data = Some fds /\
    DynamicNBI.add_files env fds DescriptorPool.new = inr pool.
Proof.
  intros Hinit. unfold DynamicNBI.__init__ in Hinit.
  destruct (read_bytes env path) as [data |] eqn:Hread; [| discriminate]. cbn in Hinit.
  destruct (parse_descriptor_set env data) as [fds |] eqn:Hparse; [| discriminate].
  cbn in Hinit.
  destruct (DynamicNBI.add_files env fds DescriptorPool.new) as [e | pool] eqn:Hload;
    [discriminate |].
  by exists data, fds, pool.
Qed.

(** C2. Once the files of the bundle are loaded into the pool, resolving
    a message-type name that no file of the bundle declares fails with
    [SchemaLookupError] and yields no handle, and resolving the name of a
    type that a file declares yields the class of that type, with the
    descriptor the file gives. An enum name that no file declares and a
    value name that a declared enum does not have fail in the same way;
    a value the enum has resolves to its entry. The constructor fails
    with [SchemaLookupError], and returns no client, when the bundle
    lacks a message type it resolves, the enum, or the enum value. *)
Theorem resolve_absent_name_fails (A : Type) (fds : list FileDescriptorProto)
  (pool : DescriptorPool.t) (factory : MessageFactory.t) (name value : string) :
  DynamicNBI.add_files env fds DescriptorPool.new = inr pool ->
  (~ declares fds name ->
   DynamicNBI._msg (A := A) pool factory name = inl (SchemaLookupError name)) /\
  (forall fd d, fd ∈ fds -> d ∈ message_types fd ->
   DynamicNBI._msg (A := A) pool factory (full_name d) = inr {| DESCRIPTOR := d |}) /\
  (~ declares_enum fds name ->
   DescriptorPool.FindEnumTypeByName pool name = inl (SchemaLookupError name)) /\
  (forall fd e, fd ∈ fds -> e ∈ enum_types fd ->
   DescriptorPool.FindEnumTypeByName pool (enum_full_name e) = inr e /\
   (values_by_name e !! value = None ->
    (DescriptorPool.FindEnumTypeByName pool (enum_full_name e)
       ≫= fun e => getitem (values_by_name e) value)
    = inl (SchemaLookupError value)) /\
   (forall v, values_by_name e !! value = Some v ->
    (DescriptorPool.FindEnumTypeByName pool (enum_full_name e)
       ≫= fun e => getitem (values_by_name e) value)
    = inr v)) /\
  (forall channel path timeout data,
   read_bytes env path = Some data ->
   parse_descriptor_set env data = Some fds ->
   (name ∈ required_messages /\ ~ declares fds name) \/
   ~ declares_enum fds motion_source_enum \/
   (exists fd e, fd ∈ fds /\ e ∈ enum_types fd /\
                 enum_full_name e = motion_source_enum /\
                 values_by_name e !! "UNKNOWN_SOURCE" = None) ->
   exists key, DynamicNBI.__init__ env channel path timeout = inl (SchemaLookupError key)).
Proof.
  intros Hload. destruct (loaded_tables env fds pool Hload) as (_ & Hmsg & Henum).
  assert (Habsent : forall name, ~ declares fds name ->
    DescriptorPool.messages pool !! name = None).
  { intros n Hn. destruct (DescriptorPool.messages pool !! n) as [d |] eqn:Hd; [| done].
    destruct Hn. apply Hmsg in Hd as [Hname (fd & Hfd & Hd)]. by exists fd, d. }
  assert (Habsent_enum : forall name, ~ declares_enum fds name ->
    DescriptorPool.enums pool !! name = None).
  { intros n Hn. destruct (DescriptorPool.enums pool !! n) as [e |] eqn:He; [| done].
    destruct Hn. apply Henum in He as [Hname (fd & Hfd & He)]. by exists fd, e. }
  assert (Hdeclared_enum : forall fd e, fd ∈ fds -> e ∈ enum_types fd ->
    DescriptorPool.enums pool !! enum_full_name e = Some e).
  { intros fd e Hfd He. apply Henum. split; [done |]. by exists fd. }
  split; [| split; [| split; [| split]]].
  - intros Hn. unfold DynamicNBI._msg, DescriptorPool.FindMessageTypeByName, getitem.
    by rewrite (Habsent name Hn).
  - intros fd d Hfd Hd.
    unfold DynamicNBI._msg, DescriptorPool.FindMessageTypeByName, getitem.
    assert (Hbound : DescriptorPool.messages pool !! full_name d = Some d).
    { apply Hmsg. split; [done |]. by exists fd. }
    by rewrite Hbound.
  - intros Hn. unfold DescriptorPool.FindEnumTypeByName, getitem.
    by rewrite (Habsent_enum name Hn).
  - intros fd e Hfd He. unfold DescriptorPool.FindEnumTypeByName, getitem.
    rewrite (Hdeclared_enum fd e Hfd He). cbn. split; [done |]. split.
    + by intros ->.
    + by intros v ->.
  - intros channel path timeout data Hread Hparse Hlacks.
    rewrite (init_loaded _ _ _ _ _ _ Hread Hparse Hload). cbn zeta.
    unfold DynamicNBI._msg, DescriptorPool.FindMessageTypeByName,
      DescriptorPool.FindEnumTypeByName, getitem.
    unfold required_messages, motion_source_enum in Hlacks.
    repeat match goal with
    | |- context [DescriptorPool.messages pool !! ?k] =>
        destruct (DescriptorPool.messages pool !! k) eqn:?; cbn;
        [| eexists; reflexivity]
    end.
    destruct (DescriptorPool.enums pool !! _) as [e |] eqn:He; cbn;
      [| eexists; reflexivity].
    destruct (values_by_name e !! _) eqn:Hvalue; cbn; [| eexists; reflexivity].
    unfold motion_source_enum in He.
    exfalso. destruct Hlacks as [[Hreq Hn] | [Hn | (fd & e' & Hfd & He' & Hname & Hnone)]].
    + apply Habsent in Hn.
      repeat (apply elem_of_cons in Hreq as [-> | Hreq]; [congruence |]).
      by apply elem_of_nil in Hreq.
    + apply Habsent_enum in Hn. unfold motion_source_enum in Hn. congruence.
    + pose proof (Hdeclared_enum fd e' Hfd He') as Hbound.
      rewrite Hname in Hbound. unfold motion_source_enum in Hbound. congruence.
Qed.

End Registry.

(** ** The wrappers *)

Section Wrappers.
Context (env : Env).
Context {platform_codec : Codec PlatformDefinition.t}
        {node_codec : Codec NetworkNode.t}
        {link_codec : Codec BidirectionalLink.t}
        {clear_codec : Codec ClearScenarioRequest.t}
        {get_codec : Codec GetScenarioRequest.t}
        {snapshot_codec : Codec ScenarioSnapshot.t}
        {empty_codec : Codec empty_pb2.Empty.t}.

(** C5 (amended). Every invocation of a wrapper hands exactly one call to
    the channel, whether the call succeeds or fails: the calls issued grow
    by that one call, which carries the method of the wrapper, the request
    in its wire form and the timeout of the client. The value of the call
    is the response bytes deserialized into a fresh instance of the
    response type ([Empty], [PlatformDefinition], [NetworkNode],
    [BidirectionalLink], [ScenarioSnapshot]); a call that fails raises its
    failure, and a response that does not deserialize fails the call with
    the status INTERNAL. Create-platform, create-node, create-link and
    get-snapshot return that value; clear-scenario deserializes the
    response into [Empty] and returns nothing. *)
Theorem wrapper_issues_one_call (s : DynamicNBI.State)
  (name typ : string) (coords : spec_float * spec_float * spec_float)
  (node_id platform_id iface_id transceiver_id : string)
  (a_node a_iface b_node b_iface : string) :
  let self := DynamicNBI.self s in
  let channel := DynamicNBI.channel self in
  let history := calls (DynamicNBI.world s) in
  let clear :=
    issued s "/aalyria.spacetime.api.nbi.v1alpha.ScenarioService/ClearScenario"
      (SerializeToString ClearScenarioRequest.new) in
  let platform :=
    issued s "/aalyria.spacetime.api.nbi.v1alpha.PlatformService/CreatePlatform"
      (SerializeToString
         (platform_message (DynamicNBI.motion_unknown self) name typ coords)) in
  let node :=
    issued s "/aalyria.spacetime.api.nbi.v1alpha.NetworkNodeService/CreateNode"
      (SerializeToString (node_message node_id platform_id iface_id transceiver_id)) in
  let link :=
    issued s "/aalyria.spacetime.api.nbi.v1alpha.NetworkLinkService/CreateLink"
      (SerializeToString (link_message a_node a_iface b_node b_iface)) in
  let get :=
    issued s "/aalyria.spacetime.api.nbi.v1alpha.ScenarioService/GetScenario"
      (SerializeToString GetScenarioRequest.new) in
  DynamicNBI.clear_scenario env s =
    (answer env channel history empty_pb2.Empty.new clear ≫= (fun _ => inr tt),
     sent clear s) /\
  DynamicNBI.create_platform env name typ coords s =
    (answer env channel history PlatformDefinition.new platform,
     sent platform s) /\
  DynamicNBI.create_node env node_id platform_id iface_id transceiver_id s =
    (answer env channel history NetworkNode.new node,
     sent node s) /\
  DynamicNBI.create_link env a_node a_iface b_node b_iface s =
    (answer env channel history BidirectionalLink.new link,
     sent link s) /\
  DynamicNBI.get_scenario env s =
    (answer env channel history ScenarioSnapshot.new get,
     sent get s).
Proof.
  cbn zeta. repeat split.
  - apply clear_scenario_run.
  - rewrite create_platform_run. apply unary_run.
  - rewrite create_node_run. apply unary_run.
  - rewrite create_link_run. apply unary_run.
  - rewrite get_scenario_run. apply unary_run.
Qed.

(** C7. No wrapper changes the client object: after clear-scenario,
    create-platform, create-node, create-link and get-snapshot the
    attributes of the client (channel, timeout, pool, factory, message
    classes, resolved enum value) are what they were before the call. *)
Theorem wrapper_keeps_client (s : DynamicNBI.State)
  (name typ : string) (coords : spec_float * spec_float * spec_float)
  (node_id platform_id iface_id transceiver_id : string)
  (a_node a_iface b_node b_iface : string) :
  DynamicNBI.self (DynamicNBI.clear_scenario env s).2 = DynamicNBI.self s /\
  DynamicNBI.self (DynamicNBI.create_platform env name typ coords s).2
    = DynamicNBI.self s /\
  DynamicNBI.self
    (DynamicNBI.create_node env node_id platform_id iface_id transceiver_id s).2
    = DynamicNBI.self s /\
  DynamicNBI.self (DynamicNBI.create_link env a_node a_iface b_node b_iface s).2
    = DynamicNBI.self s /\
  DynamicNBI.self (DynamicNBI.get_scenario env s).2 = DynamicNBI.self s.
Proof.
  repeat split.
  - rewrite clear_scenario_run. reflexivity.
  - rewrite create_platform_run, unary_run. reflexivity.
  - rewrite create_node_run, unary_run. reflexivity.
  - rewrite create_link_run, unary_run. reflexivity.
  - rewrite get_scenario_run, unary_run. reflexivity.
Qed.

End Wrappers.

(** C8. The link message that create-link sends has, on each end, the
    receive interface equal to the transmit interface: both are the one
    interface argument of that end, so a caller cannot ask for distinct
    transmit and receive interfaces. *)
Theorem create_link_rx_is_tx (a_node a_iface b_node b_iface : string) :
  exists link : BidirectionalLink.t,
    BidirectionalLink.a_network_node_id link = a_node /\
    BidirectionalLink.a_tx_interface_id link = a_iface /\
    BidirectionalLink.a_rx_interface_id link = BidirectionalLink.a_tx_interface_id link /\
    BidirectionalLink.b_network_node_id link = b_node /\
    BidirectionalLink.b_tx_interface_id link = b_iface /\
    BidirectionalLink.b_rx_interface_id link = BidirectionalLink.b_tx_interface_id link /\
    forall (env : Env) (link_codec : Codec BidirectionalLink.t) (s : DynamicNBI.State),
      DynamicNBI.create_link env a_node a_iface b_node b_iface s =
      DynamicNBI._unary env
        "/aalyria.spacetime.api.nbi.v1alpha.NetworkLinkService/CreateLink"
        link (DynamicNBI.BidirectionalLink (DynamicNBI.self s)) s.
Proof.
  exists (link_message a_node a_iface b_node b_iface).
  repeat (split; [reflexivity |]). intros env link_codec s. apply create_link_run.
Qed.

(** C9. The node message that create-node sends has the type "ROUTER",
    whatever the arguments, and exactly one interface; the interface id,
    the platform and the transceiver model id of that interface are the
    corresponding arguments. *)
Theorem create_node_router_one_interface
  (node_id platform_id iface_id transceiver_id : string) :
  exists (node : NetworkNode.t) (iface : NetworkInterface.t),
    NetworkNode.node_id node = node_id /\
    NetworkNode.type node = "ROUTER" /\
    NetworkNode.node_interface node = [iface] /\
    NetworkInterface.interface_id iface = iface_id /\
    WirelessDevice.platform (NetworkInterface.wireless iface) = platform_id /\
    TransceiverModelId.transceiver_model_id
      (WirelessDevice.transceiver_model_id (NetworkInterface.wireless iface))
      = transceiver_id /\
    forall (env : Env) (node_codec : Codec NetworkNode.t) (s : DynamicNBI.State),
      DynamicNBI.create_node env node_id platform_id iface_id transceiver_id s =
      DynamicNBI._unary env
        "/aalyria.spacetime.api.nbi.v1alpha.NetworkNodeService/CreateNode"
        node (DynamicNBI.NetworkNode (DynamicNBI.self s)) s.
Proof.
  exists (node_message node_id platform_id iface_id transceiver_id),
    (interface_message platform_id iface_id transceiver_id).
  repeat (split; [reflexivity |]). intros env node_codec s. apply create_node_run.
Qed.

(** ** The driver *)

(** The plan is run to its end exactly when every call is answered. *)
Lemma run_plan_served (env : Env) (channel : Channel) (history : list Call)
  (plan : list (Call * (bytes -> bool))) :
  (run_plan env channel history plan).1 = None <->
  served env channel history plan = true.
Proof.
  revert history. induction plan as [| [call ok] plan IH]; intros history;
    cbn [run_plan served fst snd]; [done |].
  unfold refusal. destruct (transport env channel history call) as [data | failure];
    [| done].
  destruct (ok data); cbn [fst andb]; [apply IH | done].
Qed.

(** Run to its end, the plan has made all its calls. *)
Lemma run_plan_done (env : Env) (channel : Channel) (history : list Call)
  (plan : list (Call * (bytes -> bool))) :
  (run_plan env channel history plan).1 = None ->
  (run_plan env channel history plan).2 = plan.*1.
Proof.
  revert history. induction plan as [| [call ok] plan IH]; intros history;
    cbn [run_plan fst snd]; [done |].
  destruct (refusal env channel history call ok); cbn [fst snd]; [done |].
  intros H. cbn. f_equal. by apply IH.
Qed.

(** Stopped, the plan has made its calls up to the first call that is
    not answered, that call included, and has the exception of that
    call. *)
Lemma run_plan_stops (env : Env) (channel : Channel) (history : list Call)
  (plan : list (Call * (bytes -> bool))) (e : Exception) :
  (run_plan env channel history plan).1 = Some e ->
  exists n call ok,
    plan !! n = Some (call, ok) /\
    served env channel history (take n plan) = true /\
    refusal env channel (history ++ take n plan.*1) call ok = Some e /\
    (run_plan env channel history plan).2 = take (S n) plan.*1.
Proof.
  revert history. induction plan as [| [call ok] plan IH]; intros history;
    cbn [run_plan fst snd]; [done |].
  destruct (refusal env channel history call ok) as [e' |] eqn:Hcall; cbn [fst snd].
  - intros [= <-]. exists 0, call, ok. cbn. by rewrite app_nil_r.
  - intros Hrest. destruct (IH _ Hrest) as (n & call' & ok' & Hn & Hserved & Hstop & Hcalls).
    exists (S n), call', ok'. split; [done |]. split; [| split].
    + cbn [take served]. unfold refusal in Hcall.
      destruct (transport env channel history call) as [data | failure]; [| done].
      destruct (ok data); [done | discriminate].
    + cbn [take fmap list_fmap fst]. by rewrite <- app_assoc in Hstop.
    + cbn [take fmap list_fmap fst]. by rewrite Hcalls.
Qed.

Section DriverRuns.
Context (env : Env).
Context {platform_codec : Codec PlatformDefinition.t}
        {node_codec : Codec NetworkNode.t}
        {link_codec : Codec BidirectionalLink.t}
        {clear_codec : Codec ClearScenarioRequest.t}
        {get_codec : Codec GetScenarioRequest.t}
        {snapshot_codec : Codec ScenarioSnapshot.t}
        {empty_codec : Codec empty_pb2.Empty.t}.

Lemma init_attributes (channel : Channel) (path : string) (timeout : spec_float)
  (client : DynamicNBI.t) :
  DynamicNBI.__init__ env channel path timeout = inr client ->
  DynamicNBI.channel client = channel /\ DynamicNBI.timeout client = timeout.
Proof.
  intros Hinit.
  destruct (init_inr _ _ _ _ _ Hinit) as (data & fds & pool & Hread & Hparse & Hload).
  rewrite (init_loaded _ _ _ _ _ _ _ Hread Hparse Hload) in Hinit. cbn zeta in Hinit.
  unfold DynamicNBI._msg, DescriptorPool.FindMessageTypeByName,
    DescriptorPool.FindEnumTypeByName, getitem in Hinit.
  repeat match type of Hinit with
  | context [DescriptorPool.messages pool !! ?k] =>
      destruct (DescriptorPool.messages pool !! k); cbn in Hinit; [| discriminate]
  end.
  destruct (DescriptorPool.enums _ !! _) as [e |]; cbn in Hinit; [| discriminate].
  destruct (values_by_name e !! _); cbn in Hinit; [| discriminate].
  injection Hinit as <-. split; reflexivity.
Qed.

Lemma with_client_run {A} (client : DynamicNBI.t) (m : M DynamicNBI.State A) (w : World) :
  with_client client m w =
  ((m {| DynamicNBI.self := client; DynamicNBI.world := w |}).1,
   DynamicNBI.world (m {| DynamicNBI.self := client; DynamicNBI.world := w |}).2).
Proof. unfold with_client. destruct (m _). reflexivity. Qed.

(** A method that makes one unary call, followed by the rest of the
    program, follows a plan that starts with that call when the rest
    follows the rest of the plan. *)
Lemma plan_step {Req Resp} {req_codec : Codec Req} {resp_layout : Layout Resp}
  {resp_codec : Codec Resp}
  (m : M DynamicNBI.State Resp) (method : string) (request : Req)
  (cls : MessageClass Resp) (k : Resp -> M DynamicNBI.State unit)
  (s : DynamicNBI.State) (channel : Channel) (stdout0 : list string)
  (history : list Call) (call : Call) (plan : list (Call * (bytes -> bool)))
  (finished : (Exception + unit) * DynamicNBI.State -> Prop) :
  DynamicNBI.channel (DynamicNBI.self s) = channel ->
  stdout (DynamicNBI.world s) = stdout0 ->
  calls (DynamicNBI.world s) = history ->
  issued s method (SerializeToString request) = call ->
  m s = DynamicNBI._unary env method request cls s ->
  (forall data msg, transport env channel history call = Response data ->
     ParseFromString (new : Resp) data = Some msg ->
     follows env channel stdout0 (history ++ [call]) plan finished (k msg (sent call s))) ->
  follows env channel stdout0 history ((call, decodes (new : Resp)) :: plan) finished
    ((m ≫= k) s).
Proof.
  intros <- <- <- <- Hm Hnext.
  rewrite bind_run, Hm, unary_run. cbn zeta. unfold answer, follows.
  cbn [run_plan fst snd]. unfold refusal, decodes.
  destruct (transport env _ _ _) as [data | failure] eqn:Hanswer.
  - destruct (ParseFromString new data) as [msg |] eqn:Hparse; cbn [fst snd].
    + destruct (Hnext data msg eq_refl Hparse) as (Hr & Hcalls & Hstop & Hdone).
      split; [exact Hr |]. split; [| done].
      rewrite Hcalls, <- app_assoc. reflexivity.
    + split; [done |]. split; [done |]. split; [done | discriminate].
  - cbn [fst snd]. split; [done |]. split; [done |]. split; [done | discriminate].
Qed.

Lemma plan_step_clear (k : unit -> M DynamicNBI.State unit)
  (s : DynamicNBI.State) (channel : Channel) (stdout0 : list string)
  (history : list Call) (call : Call) (plan : list (Call * (bytes -> bool)))
  (finished : (Exception + unit) * DynamicNBI.State -> Prop) :
  DynamicNBI.channel (DynamicNBI.self s) = channel ->
  stdout (DynamicNBI.world s) = stdout0 ->
  calls (DynamicNBI.world s) = history ->
  issued s "/aalyria.spacetime.api.nbi.v1alpha.ScenarioService/ClearScenario"
    (SerializeToString ClearScenarioRequest.new) = call ->
  (forall data msg, transport env channel history call = Response data ->
     ParseFromString empty_pb2.Empty.new data = Some msg ->
     follows env channel stdout0 (history ++ [call]) plan finished (k tt (sent call s))) ->
  follows env channel stdout0 history ((call, decodes empty_pb2.Empty.new) :: plan)
    finished ((DynamicNBI.clear_scenario env ≫= k) s).
Proof.
  intros <- <- <- <- Hnext.
  rewrite bind_run, clear_scenario_run. cbn zeta. unfold answer, follows.
  cbn [run_plan fst snd]. unfold refusal, decodes.
  destruct (transport env _ _ _) as [data | failure] eqn:Hanswer.
  - destruct (ParseFromString empty_pb2.Empty.new data) as [msg |] eqn:Hparse;
      cbn [fst snd mbind result_bind].
    + destruct (Hnext data msg eq_refl Hparse) as (Hr & Hcalls & Hstop & Hdone).
      split; [exact Hr |]. split; [| done].
      rewrite Hcalls, <- app_assoc. reflexivity.
    + split; [done |]. split; [done |]. split; [done | discriminate].
  - cbn [fst snd mbind result_bind].
    split; [done |]. split; [done |]. split; [done | discriminate].
Qed.

(* One more call of the driver. *)
Ltac call_step :=
  cbv beta;
  first
    [ eapply plan_step_clear; [reflexivity | reflexivity | reflexivity | reflexivity |]
    | eapply (plan_step (req_codec := _ : Codec PlatformDefinition.t));
      [reflexivity | reflexivity | reflexivity | reflexivity
      | apply create_platform_run |]
    | eapply (plan_step (req_codec := _ : Codec NetworkNode.t));
      [reflexivity | reflexivity | reflexivity | reflexivity
      | apply create_node_run |]
    | eapply (plan_step (req_codec := _ : Codec BidirectionalLink.t));
      [reflexivity | reflexivity | reflexivity | reflexivity
      | apply create_link_run |]
    | eapply (plan_step (req_codec := _ : Codec GetScenarioRequest.t));
      [reflexivity | reflexivity | reflexivity | reflexivity
      | apply get_scenario_run |] ];
  intros ? ? ? ?.

(* Every call was answered: the snapshot is printed. *)
Ltac finished :=
  cbv beta; unfold follows; cbn [run_plan fst snd];
  split; [reflexivity |];
  split; [by rewrite app_nil_r |];
  split; [intros Hr; by destruct Hr |];
  intros _;
  match goal with
  | Hget : transport _ _ _ _ = Response ?data,
    Hparse : ParseFromString _ ?data = Some ?snapshot |- _ =>
      exists data, snapshot;
      rewrite <- ?app_assoc in Hget; cbn [app] in Hget;
      split; [exact Hget |]; split; [exact Hparse | reflexivity]
  end.

(** The driver follows its plan. *)
Lemma main_runs_plan (args : Namespace.t) (w : World) (client : DynamicNBI.t) :
  DynamicNBI.__init__ env (insecure_channel (Namespace.endpoint args))
    (Namespace.descriptor args) (Namespace.timeout args) = inr client ->
  let plan := driver_plan args client in
  let run := run_plan env (DynamicNBI.channel client) (calls w) plan in
  (main env args w).1 = match run.1 with None => inr tt | Some e => inl e end /\
  calls (main env args w).2 = calls w ++ run.2 /\
  (run.1 <> None -> stdout (main env args w).2 = stdout w) /\
  (run.1 = None ->
   exists data snapshot,
     transport env (DynamicNBI.channel client)
       (calls w ++ take (length plan - 1) plan.*1) (get_scenario_call args)
       = Response data /\
     ParseFromString ScenarioSnapshot.new data = Some snapshot /\
     stdout (main env args w).2 = printed snapshot (stdout w)).
Proof.
  intros Hinit. destruct (init_attributes _ _ _ _ Hinit) as [Hch Ht].
  cbn zeta. unfold main. rewrite Hinit, with_client_run. cbn [fst snd].
  match goal with
  | |- context [?body {| DynamicNBI.self := client; DynamicNBI.world := w |}] =>
      set (out := body {| DynamicNBI.self := client; DynamicNBI.world := w |})
  end.
  enough (Hfollows : follows env (DynamicNBI.channel client) (stdout w) (calls w)
            (driver_plan args client)
            (fun out =>
               exists data snapshot,
                 transport env (DynamicNBI.channel client)
                   (calls w ++ take (length (driver_plan args client) - 1)
                                 (driver_plan args client).*1)
                   (get_scenario_call args) = Response data /\
                 ParseFromString ScenarioSnapshot.new data = Some snapshot /\
                 stdout (DynamicNBI.world out.2) = printed snapshot (stdout w))
            out)
    by exact Hfollows.
  subst out.
  unfold driver_plan, build_plan, clear_scenario_call, get_scenario_call, driver_call.
  rewrite <- Ht.
  destruct (Namespace.skip_clear args); cbn [negb app length Nat.sub take fmap list_fmap fst].
  - rewrite bind_run. cbn [mret M_ret].
    do 6 call_step. finished.
  - do 7 call_step. finished.
Qed.

(** C1: built on a client that [__init__] has constructed, the driver
    ends normally exactly when every call of its plan is answered: the
    optional clear-scenario call, then create-platform twice,
    create-node twice, create-link and get-scenario, each on the history the
    calls before it have left, and answered when the service gives
    bytes that the response message parses.  It has then made exactly
    these calls, in this order, and has printed the snapshot that the
    answer to the last call parses to.  Otherwise it ends with the
    exception of the first call [n] of the plan that is not answered:
    the status of the service, or the internal status of a response
    that cannot be deserialized; the calls before it were answered, the
    calls made are the first [n + 1] of the plan, the failed call the
    last of them, and nothing is printed. *)
Theorem driver_run (args : Namespace.t) (w : World) (client : DynamicNBI.t) :
  DynamicNBI.__init__ env (insecure_channel (Namespace.endpoint args))
    (Namespace.descriptor args) (Namespace.timeout args) = inr client ->
  let r := (main env args w).1 in
  let w' := (main env args w).2 in
  let plan := driver_plan args client in
  let cs := driver_calls args client in
  (r = inr tt <-> served env (DynamicNBI.channel client) (calls w) plan = true) /\
  (r = inr tt ->
   calls w' = calls w ++ cs /\
   exists data snapshot,
     transport env (DynamicNBI.channel client) (calls w ++ take (length cs - 1) cs)
       (get_scenario_call args) = Response data /\
     ParseFromString ScenarioSnapshot.new data = Some snapshot /\
     stdout w' = printed snapshot (stdout w)) /\
  (forall e, r = inl e ->
   exists n call ok,
     plan !! n = Some (call, ok) /\
     served env (DynamicNBI.channel client) (calls w) (take n plan) = true /\
     refusal env (DynamicNBI.channel client) (calls w ++ take n cs) call ok = Some e /\
     calls w' = calls w ++ take (S n) cs /\
     stdout w' = stdout w).
Proof.
  intros Hinit. cbn zeta.
  destruct (main_runs_plan args w client Hinit) as (Hr & Hcalls & Hstop & Hdone).
  cbn zeta in Hr, Hcalls, Hstop, Hdone. unfold driver_calls.
  pose proof (run_plan_served env (DynamicNBI.channel client) (calls w)
                (driver_plan args client)) as Hserved.
  destruct (run_plan env (DynamicNBI.channel client) (calls w)
              (driver_plan args client)).1 as [e |] eqn:Hrun.
  - split; [| split].
    + rewrite Hr. split; [discriminate |].
      intros H. apply Hserved in H. discriminate.
    + rewrite Hr. discriminate.
    + intros e' He'. rewrite Hr in He'. injection He' as <-.
      destruct (run_plan_stops _ _ _ _ _ Hrun) as (n & call & ok & Hn & Hbefore & Hcall & Hmade).
      exists n, call, ok. rewrite Hcalls, Hmade.
      repeat (split; [done |]). apply Hstop. discriminate.
  - split; [| split].
    + rewrite Hr. split; [intros _; by apply Hserved | done].
    + intros _. rewrite Hcalls, (run_plan_done _ _ _ _ Hrun).
      split; [done |]. rewrite length_fmap. by apply Hdone.
    + intros e He. rewrite Hr in He. discriminate.
Qed.

End DriverRuns.

(** ** The printers *)

(** A loop that prints one line per element. *)
Lemma foldl_print {A} (line : A -> string) (l : list A) (stdout : list string) :
  foldl (fun stdout x => print (line x) stdout) stdout l = stdout ++ map line l.
Proof.
  revert stdout. induction l as [| x l IH]; intros stdout; cbn.
  - by rewrite app_nil_r.
  - rewrite IH. unfold print. by rewrite <- app_assoc.
Qed.

Lemma print_links_lines (links : list BidirectionalLink.t) (indent : string)
  (stdout : list string) :
  print_links links indent stdout =
  stdout ++ (indent +:+ "Links:") :: map (link_line indent) links.
Proof.
  unfold print_links. rewrite (foldl_print (link_line indent)).
  unfold print. by rewrite <- app_assoc.
Qed.

(** The platform printer never reaches its placeholder: every platform
    gets a line with a coordinate triple. *)
Lemma print_platforms_lines (platforms : list PlatformDefinition.t) (indent : string)
  (stdout : list string) :
  print_platforms platforms indent stdout =
  stdout ++ (indent +:+ "Platforms:") :: map (platform_line indent) platforms.
Proof.
  unfold print_platforms. cbn [getattr]. rewrite (foldl_print (platform_line indent)).
  unfold print. by rewrite <- app_assoc.
Qed.

(** C4, at a platform without coordinates. The printer reads the
    coordinates through the message, which yields the default point, and
    a message is true: the line shows the triple of zeros and not the
    placeholder. *)
Theorem print_platforms_unset_coordinates (name typ : string) (motion_source : Z)
  (indent : string) (stdout : list string) :
  print_platforms [PlatformDefinition.mk name typ motion_source None] indent stdout =
  stdout ++ [ indent +:+ "Platforms:";
              indent +:+ "- " +:+ name +:+ " [" +:+ typ
                +:+ "] coords=(0.0, 0.0, 0.0) m" ].
Proof.
  unfold print_platforms, print. cbn. by rewrite <- app_assoc.
Qed.

(** C10. The link printer prints, under its header, one line per link of
    the form [a_node/a_tx <-> b_node/b_tx]; the output is the same for
    any links with these node and transmit-interface ids, whatever their
    receive-interface ids. *)
Theorem print_links_ignores_rx (links : list BidirectionalLink.t) (indent : string)
  (stdout : list string) :
  print_links links indent stdout =
    stdout ++ (indent +:+ "Links:")
      :: map (fun l =>
           indent +:+ "- " +:+ BidirectionalLink.a_network_node_id l +:+ "/"
             +:+ BidirectionalLink.a_tx_interface_id l +:+ " <-> "
             +:+ BidirectionalLink.b_network_node_id l +:+ "/"
             +:+ BidirectionalLink.b_tx_interface_id l) links /\
  forall links' : list BidirectionalLink.t,
    map endpoints links' = map endpoints links ->
    print_links links' indent stdout = print_links links indent stdout.
Proof.
  split; [apply print_links_lines |].
  intros links' Hsame. rewrite !print_links_lines. do 2 f_equal.
  revert links' Hsame. induction links as [| l links IH]; intros [| l' links'] Hsame;
    try discriminate; [reflexivity |].
  cbn in Hsame.
  assert (Hl : endpoints l' = endpoints l) by congruence.
  assert (Hrest : map endpoints links' = map endpoints links) by congruence.
  cbn. f_equal; [| by apply IH].
  destruct l, l'. unfold endpoints in Hl. cbn in Hl. unfold link_line. cbn.
  congruence.
Qed.

(** ** The statements on the test environment *)

(** C1 as stated fails on a run without connection: with the default
    command line the driver issues the clear-scenario call, which fails,
    and stops there; six of the seven calls are never made and nothing is
    printed. *)
Lemma driver_stops_at_failed_call :
  (TestEnv.run_main TestEnv.env_unreachable TestEnv.default_args).1
    = inl (RpcError RpcTransportError) /\
  map call_method (calls (TestEnv.run_main TestEnv.env_unreachable TestEnv.default_args).2)
    = ["/aalyria.spacetime.api.nbi.v1alpha.ScenarioService/ClearScenario"] /\
  calls (TestEnv.run_main TestEnv.env_unreachable TestEnv.default_args).2
    <> TestRun.expected_calls /\
  length TestRun.expected_calls = 7 /\
  stdout (TestEnv.run_main TestEnv.env_unreachable TestEnv.default_args).2 = [].
Proof. vm_compute. repeat split. discriminate. Qed.

(* A statement about the driver, taken under the test doubles. *)
Ltac under_test_doubles statement env args :=
  assert (Hinit :
    DynamicNBI.__init__ env
      (insecure_channel (Namespace.endpoint args))
      (Namespace.descriptor args)
      (Namespace.timeout args) = inr TestEnv.client)
    by reflexivity;
  destruct (statement env
              (TestEnv.stub_codec PlatformDefinition.t) (TestEnv.stub_codec NetworkNode.t)
              (TestEnv.stub_codec BidirectionalLink.t)
              (TestEnv.stub_codec ClearScenarioRequest.t)
              (TestEnv.stub_codec GetScenarioRequest.t)
              TestEnv.snapshot_codec
              (TestEnv.stub_codec empty_pb2.Empty.t)
              args TestEnv.start TestEnv.client Hinit)
    as (Hiff & Hdone & Hstop).

(** C1 (amended) on three runs: against the serving test service,
    without and with the skip-clear flag, and against the service that
    answers the clear-scenario call and then sends bytes that are no
    message, where the run stops at the first create-platform call. *)
Lemma driver_run_witness :
  ((TestEnv.run_main TestEnv.env_serving TestEnv.default_args).1 = inr tt /\
   map call_method (calls (TestEnv.run_main TestEnv.env_serving TestEnv.default_args).2)
     = [ "/aalyria.spacetime.api.nbi.v1alpha.ScenarioService/ClearScenario";
         "/aalyria.spacetime.api.nbi.v1alpha.PlatformService/CreatePlatform";
         "/aalyria.spacetime.api.nbi.v1alpha.PlatformService/CreatePlatform";
         "/aalyria.spacetime.api.nbi.v1alpha.NetworkNodeService/CreateNode";
         "/aalyria.spacetime.api.nbi.v1alpha.NetworkNodeService/CreateNode";
         "/aalyria.spacetime.api.nbi.v1alpha.NetworkLinkService/CreateLink";
         "/aalyria.spacetime.api.nbi.v1alpha.ScenarioService/GetScenario" ] /\
   stdout (TestEnv.run_main TestEnv.env_serving TestEnv.default_args).2
     = printed TestEnv.sample_snapshot []) /\
  ((TestEnv.run_main TestEnv.env_serving TestEnv.skip_clear_args).1 = inr tt /\
   map call_method (calls (TestEnv.run_main TestEnv.env_serving TestEnv.skip_clear_args).2)
     = [ "/aalyria.spacetime.api.nbi.v1alpha.PlatformService/CreatePlatform";
         "/aalyria.spacetime.api.nbi.v1alpha.PlatformService/CreatePlatform";
         "/aalyria.spacetime.api.nbi.v1alpha.NetworkNodeService/CreateNode";
         "/aalyria.spacetime.api.nbi.v1alpha.NetworkNodeService/CreateNode";
         "/aalyria.spacetime.api.nbi.v1alpha.NetworkLinkService/CreateLink";
         "/aalyria.spacetime.api.nbi.v1alpha.ScenarioService/GetScenario" ] /\
   stdout (TestEnv.run_main TestEnv.env_serving TestEnv.skip_clear_args).2
     = printed TestEnv.sample_snapshot []) /\
  ((TestEnv.run_main TestEnv.env_garbling TestEnv.default_args).1
     = inl (RpcError (RpcStatusError 13 "Exception deserializing response!")) /\
   map call_method (calls (TestEnv.run_main TestEnv.env_garbling TestEnv.default_args).2)
     = [ "/aalyria.spacetime.api.nbi.v1alpha.ScenarioService/ClearScenario";
         "/aalyria.spacetime.api.nbi.v1alpha.PlatformService/CreatePlatform" ] /\
   stdout (TestEnv.run_main TestEnv.env_garbling TestEnv.default_args).2 = []).
Proof.
  split; [| split].
  - under_test_doubles (@driver_run) TestEnv.env_serving TestEnv.default_args.
    assert (Hr : (TestEnv.run_main TestEnv.env_serving TestEnv.default_args).1 = inr tt)
      by (apply Hiff; vm_compute; reflexivity).
    destruct (Hdone Hr) as (Hcalls & data & snapshot & Hget & Hparse & Hout).
    vm_compute in Hget. injection Hget as <-.
    vm_compute in Hparse. injection Hparse as <-.
    split; [exact Hr |]. split; [| exact Hout].
    unfold TestEnv.run_main. rewrite Hcalls. reflexivity.
  - under_test_doubles (@driver_run) TestEnv.env_serving TestEnv.skip_clear_args.
    assert (Hr : (TestEnv.run_main TestEnv.env_serving TestEnv.skip_clear_args).1 = inr tt)
      by (apply Hiff; vm_compute; reflexivity).
    destruct (Hdone Hr) as (Hcalls & data & snapshot & Hget & Hparse & Hout).
    vm_compute in Hget. injection Hget as <-.
    vm_compute in Hparse. injection Hparse as <-.
    split; [exact Hr |]. split; [| exact Hout].
    unfold TestEnv.run_main. rewrite Hcalls. reflexivity.
  - under_test_doubles (@driver_run) TestEnv.env_garbling TestEnv.default_args.
    assert (Hr : (TestEnv.run_main TestEnv.env_garbling TestEnv.default_args).1
                 = inl (RpcError (RpcStatusError 13 "Exception deserializing response!")))
      by (vm_compute; reflexivity).
    destruct (Hstop _ Hr) as (n & call & ok & Hn & Hbefore & Hcall & Hcalls & Hout).
    split; [exact Hr |]. split; [| exact Hout].
    unfold TestEnv.run_main. rewrite Hcalls.
    destruct n as [| [| n]].
    + injection Hn as <- <-. vm_compute in Hcall. discriminate Hcall.
    + reflexivity.
    + vm_compute in Hbefore. discriminate Hbefore.
Defined.

(* No file of the bundle declares the name. *)
Ltac undeclared :=
  intros (fd & d & Hfd & Hd & Hname);
  unfold TestEnv.bundle in Hfd; cbn [take] in Hfd;
  repeat (apply elem_of_cons in Hfd as [-> | Hfd];
          [ cbn in Hd;
            repeat (apply elem_of_cons in Hd as [-> | Hd];
                    [cbn in Hname; discriminate Hname |]);
            by apply elem_of_nil in Hd |]);
  by apply elem_of_nil in Hfd.

(** C2 on the test bundle: a name that no file declares, a name that a
    file declares, the enum and its values, and a bundle cut short. *)
Lemma resolve_absent_name_fails_witness :
  DynamicNBI._msg (A := PlatformDefinition.t) TestEnv.pool (MessageFactory.mk TestEnv.pool)
    "aalyria.spacetime.api.common.Missing"
    = inl (SchemaLookupError "aalyria.spacetime.api.common.Missing") /\
  DynamicNBI._msg (A := PlatformDefinition.t) TestEnv.pool (MessageFactory.mk TestEnv.pool)
    "aalyria.spacetime.api.common.PlatformDefinition"
    = inr {| DESCRIPTOR :=
               {| full_name := "aalyria.spacetime.api.common.PlatformDefinition" |} |} /\
  DynamicNBI._msg (A := NetworkNode.t) TestMore.pool_truncated
    (MessageFactory.mk TestMore.pool_truncated)
    "aalyria.spacetime.api.nbi.v1alpha.resources.NetworkNode"
    = inl (SchemaLookupError "aalyria.spacetime.api.nbi.v1alpha.resources.NetworkNode") /\
  DescriptorPool.FindEnumTypeByName TestEnv.pool "aalyria.spacetime.api.common.Missing"
    = inl (SchemaLookupError "aalyria.spacetime.api.common.Missing") /\
  DescriptorPool.FindEnumTypeByName TestEnv.pool motion_source_enum
    = inr TestEnv.MotionSource /\
  (DescriptorPool.FindEnumTypeByName TestEnv.pool motion_source_enum
     ≫= fun e => getitem (values_by_name e) "NO_SUCH_SOURCE")
    = inl (SchemaLookupError "NO_SUCH_SOURCE") /\
  (DescriptorPool.FindEnumTypeByName TestEnv.pool motion_source_enum
     ≫= fun e => getitem (values_by_name e) "UNKNOWN_SOURCE")
    = inr {| number := 0 |} /\
  exists key,
    DynamicNBI.__init__ TestEnv.env_serving (insecure_channel "localhost:50051")
      "truncated.pb" (PyFloat.of_Z 10) = inl (SchemaLookupError key).
Proof.
  assert (Hload : DynamicNBI.add_files TestEnv.env_serving TestEnv.bundle DescriptorPool.new
                  = inr TestEnv.pool) by reflexivity.
  assert (Hcut : DynamicNBI.add_files TestEnv.env_serving (take 1 TestEnv.bundle)
                   DescriptorPool.new = inr TestMore.pool_truncated) by reflexivity.
  assert (Hplatform : TestEnv.bundle !! 0 = Some
            {| file_name := "api/common/platform.proto";
               dependency := [];
               message_types :=
                 [ {| full_name := "aalyria.spacetime.api.common.PlatformDefinition" |};
                   {| full_name := "aalyria.spacetime.api.common.TransceiverModelId" |} ];
               enum_types := [TestEnv.MotionSource] |}) by reflexivity.
  apply list_elem_of_lookup_2 in Hplatform.
  pose proof (fun name value =>
    resolve_absent_name_fails TestEnv.env_serving PlatformDefinition.t
      TestEnv.bundle TestEnv.pool (MessageFactory.mk TestEnv.pool) name value Hload) as H.
  pose proof (fun name value =>
    resolve_absent_name_fails TestEnv.env_serving NetworkNode.t
      (take 1 TestEnv.bundle) TestMore.pool_truncated
      (MessageFactory.mk TestMore.pool_truncated) name value Hcut) as H'.
  assert (Hnode : ~ declares (take 1 TestEnv.bundle)
                      "aalyria.spacetime.api.nbi.v1alpha.resources.NetworkNode")
    by undeclared.
  destruct (H "aalyria.spacetime.api.common.Missing" "NO_SUCH_SOURCE")
    as (Habsent & Hpresent & Habsent_enum & Henum & _).
  destruct (Henum _ TestEnv.MotionSource Hplatform (list_elem_of_here _ _))
    as (Hpresent_enum & Hno_value & _).
  destruct (H "" "UNKNOWN_SOURCE") as (_ & _ & _ & Henum' & _).
  destruct (Henum' _ TestEnv.MotionSource Hplatform (list_elem_of_here _ _))
    as (_ & _ & Hvalue).
  destruct (H' "aalyria.spacetime.api.nbi.v1alpha.resources.NetworkNode" "")
    as (Hcut_absent & _ & _ & _ & Hinit).
  split.
  { apply Habsent. undeclared. }
  split.
  { exact (Hpresent _ {| full_name := "aalyria.spacetime.api.common.PlatformDefinition" |}
             Hplatform (list_elem_of_here _ _)). }
  split.
  { exact (Hcut_absent Hnode). }
  split.
  { apply Habsent_enum.
    intros (fd & e & Hfd & He & Hname).
    unfold TestEnv.bundle in Hfd.
    repeat (apply elem_of_cons in Hfd as [-> | Hfd];
            [ cbn in He;
              repeat (apply elem_of_cons in He as [-> | He];
                      [cbn in Hname; discriminate Hname |]);
              by apply elem_of_nil in He |]).
    by apply elem_of_nil in Hfd. }
  split.
  { exact Hpresent_enum. }
  split.
  { apply Hno_value. reflexivity. }
  split.
  { apply Hvalue. reflexivity. }
  apply (Hinit (insecure_channel "localhost:50051") "truncated.pb" (PyFloat.of_Z 10)
           [Byte.x0b]); [reflexivity | reflexivity |].
  left. split; [| exact Hnode].
  unfold required_messages. apply list_elem_of_further, list_elem_of_here.
Defined.

(** C5 as stated fails for clear-scenario: the call it makes has the
    deserialized [Empty] message as its value, and the wrapper returns
    nothing. *)
Lemma clear_scenario_returns_nothing :
  (TestRun.clear_scenario_call TestEnv.ready).1 = inr empty_pb2.Empty.mk /\
  (TestRun.clear_scenario TestEnv.ready).1 = inr tt /\
  calls (DynamicNBI.world (TestRun.clear_scenario TestEnv.ready).2)
    = calls (DynamicNBI.world (TestRun.clear_scenario_call TestEnv.ready).2).
Proof. vm_compute. repeat split. Qed.

(** C10 on two links that differ in their receive interfaces only. *)
Lemma print_links_ignores_rx_witness :
  print_links TestRun.links_other_rx "  " [] = print_links TestRun.links "  " [] /\
  print_links TestRun.links "  " []
    = ["  Links:"; "  - node-ground/if-ground <-> node-sat/if-sat"].
Proof.
  destruct (print_links_ignores_rx TestRun.links "  " []) as [Hlines Hsame].
  split.
  - apply Hsame. reflexivity.
  - rewrite Hlines. reflexivity.
Defined.

(** * Further properties *)

(** ** Further properties of the printers *)

(** A loop that prints several lines per element. *)
Lemma foldl_append {A} (lines : A -> list string) (l : list A) (stdout : list string) :
  foldl (fun stdout x => stdout ++ lines x) stdout l = stdout ++ concat (map lines l).
Proof.
  revert stdout. induction l as [| x l IH]; intros stdout; cbn.
  - by rewrite app_nil_r.
  - rewrite IH. by rewrite <- app_assoc.
Qed.

Lemma node_lines_length (indent : string) (nodes : list NetworkNode.t) :
  length (concat (map (node_lines indent) nodes)) = length nodes + interface_count nodes.
Proof.
  induction nodes as [| n nodes IH]; [reflexivity |].
  cbn [map concat interface_count foldr]. fold (interface_count nodes).
  rewrite length_app, IH. unfold node_lines. cbn [length]. rewrite length_map. lia.
Qed.

(** The loop of the node printer. *)
Lemma print_nodes_concat (nodes : list NetworkNode.t) (indent : string)
  (stdout : list string) :
  print_nodes nodes indent stdout =
  stdout ++ (indent +:+ "Nodes:") :: concat (map (node_lines indent) nodes).
Proof.
  unfold print_nodes. cbn [getattr read].
  assert (Hloop : forall out,
    foldl (fun stdout n =>
      foldl (fun stdout iface => print (interface_line indent iface) stdout)
        (print (indent +:+ "- " +:+ NetworkNode.node_id n +:+ " ["
                  +:+ NetworkNode.type n +:+ "]") stdout)
        (NetworkNode.node_interface n)) out nodes
    = out ++ concat (map (node_lines indent) nodes)).
  { induction nodes as [| n nodes IH]; intros out; cbn [foldl map concat].
    - by rewrite app_nil_r.
    - rewrite IH, (foldl_print (interface_line indent)).
      unfold print, node_lines. rewrite <- !app_assoc. reflexivity. }
  etrans; [apply Hloop |]. unfold print. by rewrite <- app_assoc.
Qed.

(** X1. The node printer prints its header and then, node by node in
    the order of the list, the line of the node followed by one line per
    interface of that node, in order. A node without interfaces gets its
    own line only; an interface whose wireless part is unset is printed
    with an empty platform and an empty transceiver id. *)
Theorem print_nodes_lines (nodes : list NetworkNode.t) (indent : string)
  (stdout : list string) :
  print_nodes nodes indent stdout =
    stdout ++ (indent +:+ "Nodes:") :: concat (map (node_lines indent) nodes) /\
  (forall node_id typ,
     node_lines indent (NetworkNode.mk node_id typ []) =
     [indent +:+ "- " +:+ node_id +:+ " [" +:+ typ +:+ "]"]) /\
  (forall iface_id,
     interface_line indent (NetworkInterface.mk iface_id None) =
     indent +:+ "  interface " +:+ iface_id +:+ " platform= trx=").
Proof.
  split; [apply print_nodes_concat | split; reflexivity].
Qed.

(** X2. What the driver prints for a snapshot is appended to the output
    that is already there, which it leaves as it is, and does not depend
    on it; it is four header lines, one line per platform, per node, per
    interface and per link. *)
Theorem printed_appends (snapshot : ScenarioSnapshot.t) (stdout : list string) :
  printed snapshot stdout = stdout ++ printed snapshot [] /\
  length (printed snapshot []) =
    4 + length (ScenarioSnapshot.platforms snapshot)
      + length (ScenarioSnapshot.nodes snapshot)
      + interface_count (ScenarioSnapshot.nodes snapshot)
      + length (ScenarioSnapshot.links snapshot).
Proof.
  assert (Hlines : forall out,
    printed snapshot out =
    out ++ (LF +:+ "Scenario snapshot:")
      :: (("  " +:+ "Platforms:")
            :: map (platform_line "  ") (ScenarioSnapshot.platforms snapshot))
      ++ (("  " +:+ "Nodes:")
            :: concat (map (node_lines "  ") (ScenarioSnapshot.nodes snapshot)))
      ++ (("  " +:+ "Links:")
            :: map (link_line "  ") (ScenarioSnapshot.links snapshot))).
  { intros out. unfold printed.
    rewrite print_links_lines, print_nodes_concat, print_platforms_lines.
    unfold print. rewrite <- !app_assoc. reflexivity. }
  split.
  - rewrite (Hlines stdout), (Hlines []). reflexivity.
  - rewrite (Hlines []). cbn [app length].
    repeat (rewrite ?length_app, ?length_map; cbn [length]).
    rewrite node_lines_length. lia.
Qed.

(** ** Further properties of the construction *)

Section Construction.
Context (env : Env).

(** The loop over a bundle in two parts. *)
Lemma add_files_app (before after : list FileDescriptorProto) (pool : DescriptorPool.t) :
  DynamicNBI.add_files env (before ++ after) pool =
  DynamicNBI.add_files env before pool ≫= DynamicNBI.add_files env after.
Proof.
  revert pool. induction before as [| fd before IH]; intros pool;
    cbn [app DynamicNBI.add_files]; [reflexivity |].
  destruct (DescriptorPool.Add (pool_accepts env) fd pool) as [e | pool1]; cbn;
    [reflexivity | apply IH].
Qed.

(** The loop raises the exception of a file of the bundle. *)
Lemma add_files_raises_file (fds : list FileDescriptorProto) (pool : DescriptorPool.t)
  (e : Exception) :
  DynamicNBI.add_files env fds pool = inl e ->
  exists fd, fd ∈ fds /\ e = TypeError (file_name fd).
Proof.
  revert pool. induction fds as [| fd fds IH]; intros pool; cbn [DynamicNBI.add_files];
    [discriminate |].
  destruct (DescriptorPool.Add (pool_accepts env) fd pool) as [e' | pool1] eqn:Hadd; cbn.
  - intros [= <-]. exists fd. split; [apply list_elem_of_here |].
    by apply (Add_raises _ _ _ _ Hadd).
  - intros Hrest. destruct (IH _ Hrest) as (fd' & Hfd' & He). exists fd'.
    split; [by apply list_elem_of_further | done].
Qed.

(** A file is not added to a pool that lacks one of its imports. *)
Lemma Add_needs_imports (fd : FileDescriptorProto) (pool : DescriptorPool.t) (dep : string) :
  consistent pool ->
  dep ∈ dependency fd ->
  DescriptorPool.files pool !! dep = None ->
  DescriptorPool.Add (pool_accepts env) fd pool = inl (TypeError (file_name fd)).
Proof.
  intros (_ & _ & _ & Hdeps) Hdep Hnone. unfold DescriptorPool.Add.
  destruct (DescriptorPool.files pool !! file_name fd) as [loaded |] eqn:Hfile.
  - destruct (decide (loaded = fd)) as [-> |]; [| reflexivity].
    destruct (Hdeps fd dep Hfile Hdep) as [fd' Hfd']. congruence.
  - destruct (DescriptorPool.buildable (pool_accepts env) fd pool) eqn:Hbuild;
      [| reflexivity].
    unfold DescriptorPool.buildable in Hbuild.
    apply andb_prop in Hbuild as [Hbuild _]. apply andb_prop in Hbuild as [Hbuild _].
    apply andb_prop in Hbuild as [Hbuild _].
    rewrite forallb_forall in Hbuild. apply list_elem_of_In in Hdep.
    specialize (Hbuild dep Hdep). apply bool_decide_eq_true in Hbuild as [fd' Hfd'].
    congruence.
Qed.

(** X3. The loop of the constructor loads a bundle in import order
    only. When it raises, the exception is the [TypeError] of the pool
    for a file of the bundle, and the constructor raises it. It raises
    when a file comes before a file that it imports, or imports a file
    that the bundle lacks: the exception is that of this file or of a
    file before it. When it loads the bundle, the pool holds the files of
    the bundle and no other, and every import of a file of the bundle is
    a file of the bundle. *)
Theorem bundle_loads_in_import_order (fds : list FileDescriptorProto) :
  (forall e, DynamicNBI.add_files env fds DescriptorPool.new = inl e ->
     (exists fd, fd ∈ fds /\ e = TypeError (file_name fd)) /\
     forall channel path timeout data,
       read_bytes env path = Some data ->
       parse_descriptor_set env data = Some fds ->
       DynamicNBI.__init__ env channel path timeout = inl e) /\
  (forall before fd after dep,
     fds = before ++ fd :: after ->
     dep ∈ dependency fd ->
     dep ∉ file_name <$> before ->
     exists fd', fd' ∈ before ++ [fd] /\
       DynamicNBI.add_files env fds DescriptorPool.new = inl (TypeError (file_name fd'))) /\
  (forall pool, DynamicNBI.add_files env fds DescriptorPool.new = inr pool ->
     (forall fd, holds pool fd <-> fd ∈ fds) /\
     forall fd dep, fd ∈ fds -> dep ∈ dependency fd ->
       exists fd', fd' ∈ fds /\ file_name fd' = dep).
Proof.
  split; [| split].
  - intros e Hload. split; [by apply (add_files_raises_file _ _ _ Hload) |].
    intros channel path timeout data Hread Hparse. unfold DynamicNBI.__init__.
    rewrite Hread. cbn. rewrite Hparse. cbn. by rewrite Hload.
  - intros before fd after dep -> Hdep Hbefore. rewrite add_files_app.
    destruct (DynamicNBI.add_files env before DescriptorPool.new) as [e | pool] eqn:Hload;
      cbn [mbind result_bind].
    + destruct (add_files_raises_file _ _ _ Hload) as (fd' & Hfd' & ->).
      exists fd'. split; [| reflexivity]. apply elem_of_app. by left.
    + destruct (add_files_consistent _ _ _ _ Hload consistent_new) as [Hpool Hholds].
      assert (Hnone : DescriptorPool.files pool !! dep = None).
      { destruct (DescriptorPool.files pool !! dep) as [fd' |] eqn:Hfd'; [| reflexivity].
        destruct Hbefore. destruct Hpool as (Hname & _).
        pose proof (Hname _ _ Hfd') as <-.
        apply list_elem_of_fmap. exists fd'. split; [reflexivity |].
        assert (Hheld : holds pool fd') by exact Hfd'.
        apply Hholds in Hheld as [Hnew | Hin]; [| exact Hin].
        unfold holds in Hnew. cbn in Hnew. by rewrite lookup_empty in Hnew. }
      exists fd. split; [apply elem_of_app; right; apply list_elem_of_here |].
      cbn [DynamicNBI.add_files]. by rewrite (Add_needs_imports _ _ _ Hpool Hdep Hnone).
  - intros pool Hload.
    destruct (add_files_consistent _ _ _ _ Hload consistent_new) as [Hpool Hholds].
    assert (Hfds : forall fd, holds pool fd <-> fd ∈ fds).
    { intros fd. rewrite Hholds. split; [| by right].
      intros [Hnew | Hin]; [| exact Hin].
      unfold holds in Hnew. cbn in Hnew. by rewrite lookup_empty in Hnew. }
    split; [exact Hfds |]. intros fd dep Hfd Hdep.
    destruct Hpool as (Hname & _ & _ & Hdeps).
    destruct (Hdeps fd dep (proj2 (Hfds fd) Hfd) Hdep) as [fd' Hfd'].
    exists fd'. pose proof (Hname _ _ Hfd') as Hdep'. split; [| exact Hdep'].
    apply Hfds. unfold holds. by rewrite Hdep'.
Qed.

(** X4. The client is constructed exactly when the descriptor file can
    be read, its content decodes as a bundle, the pool loads the files of
    the bundle, and the pool then holds the eight message types and the
    enum value that the constructor resolves. *)
Theorem init_succeeds_iff (channel : Channel) (path : string) (timeout : spec_float) :
  (exists client, DynamicNBI.__init__ env channel path timeout = inr client) <->
  (exists data fds pool,
     read_bytes env path = Some data /\
     parse_descriptor_set env data = Some fds /\
     DynamicNBI.add_files env fds DescriptorPool.new = inr pool /\
     complete pool).
Proof.
  split.
  - intros [client Hinit].
    destruct (init_inr _ _ _ _ _ Hinit) as (data & fds & pool & Hread & Hparse & Hload).
    exists data, fds, pool. split; [done |]. split; [done |]. split; [done |].
    rewrite (init_loaded _ _ _ _ _ _ _ Hread Hparse Hload) in Hinit. cbn zeta in Hinit.
    unfold DynamicNBI._msg, DescriptorPool.FindMessageTypeByName,
      DescriptorPool.FindEnumTypeByName, getitem in Hinit.
    unfold complete, required_messages.
    repeat match type of Hinit with
    | context [DescriptorPool.messages pool !! ?k] =>
        destruct (DescriptorPool.messages pool !! k) eqn:?; cbn in Hinit;
        [| discriminate]
    end.
    destruct (DescriptorPool.enums pool !! _) as [e |] eqn:Henum;
      cbn in Hinit; [| discriminate].
    destruct (values_by_name e !! _) eqn:Hvalue; cbn in Hinit; [| discriminate].
    split.
    + intros name Hname.
      repeat (apply elem_of_cons in Hname as [-> | Hname]; [by eexists |]).
      by apply elem_of_nil in Hname.
    + exists e. split; [done | by eexists].
  - intros (data & fds & pool & Hread & Hparse & Hload & Hmessages & e & Henum & [v Hvalue]).
    rewrite (init_loaded _ _ _ _ _ _ _ Hread Hparse Hload). cbn zeta.
    unfold DynamicNBI._msg, DescriptorPool.FindMessageTypeByName,
      DescriptorPool.FindEnumTypeByName, getitem.
    unfold required_messages in Hmessages.
    repeat match goal with
    | |- context [DescriptorPool.messages pool !! ?k] =>
        let H := fresh in
        destruct (Hmessages k) as [? H]; [set_solver |]; rewrite H; cbn
    end.
    rewrite Henum. cbn. rewrite Hvalue. cbn. by eexists.
Qed.

(** X5. A constructed client holds the channel and the timeout it was
    given and the pool loaded from the bundle, which its factory shares;
    each of its eight message classes is the one the pool binds to the
    name the constructor asks for and carries that name; and its
    [motion_unknown] is the number of [UNKNOWN_SOURCE] in the enum of the
    pool. *)
Theorem constructed_client (channel : Channel) (path : string) (timeout : spec_float)
  (client : DynamicNBI.t) :
  DynamicNBI.__init__ env channel path timeout = inr client ->
  DynamicNBI.channel client = channel /\
  DynamicNBI.timeout client = timeout /\
  MessageFactory.pool (DynamicNBI.factory client) = DynamicNBI.pool client /\
  (exists data fds,
     read_bytes env path = Some data /\
     parse_descriptor_set env data = Some fds /\
     DynamicNBI.add_files env fds DescriptorPool.new = inr (DynamicNBI.pool client)) /\
  Forall (fun class : string * Descriptor =>
            DescriptorPool.messages (DynamicNBI.pool client) !! class.1 = Some class.2 /\
            full_name class.2 = class.1)
    (resolved_classes client) /\
  exists e v,
    DescriptorPool.enums (DynamicNBI.pool client) !! motion_source_enum = Some e /\
    values_by_name e !! "UNKNOWN_SOURCE" = Some v /\
    DynamicNBI.motion_unknown client = number v.
Proof.
  intros Hinit.
  destruct (init_inr _ _ _ _ _ Hinit) as (data & fds & pool & Hread & Hparse & Hload).
  destruct (loaded_tables _ _ _ Hload) as (_ & Hmsg & _).
  rewrite (init_loaded _ _ _ _ _ _ _ Hread Hparse Hload) in Hinit. cbn zeta in Hinit.
  unfold DynamicNBI._msg, DescriptorPool.FindMessageTypeByName,
    DescriptorPool.FindEnumTypeByName, getitem in Hinit.
  repeat match type of Hinit with
  | context [DescriptorPool.messages pool !! ?k] =>
      destruct (DescriptorPool.messages pool !! k) eqn:?; cbn in Hinit;
      [| discriminate]
  end.
  destruct (DescriptorPool.enums pool !! _) as [e |] eqn:Henum;
    cbn in Hinit; [| discriminate].
  destruct (values_by_name e !! _) as [v |] eqn:Hvalue; cbn in Hinit; [| discriminate].
  injection Hinit as <-. cbn.
  split; [done |]. split; [done |]. split; [done |].
  split; [by exists data, fds |].
  split; [| by exists e, v].
  unfold resolved_classes. cbn.
  repeat (apply Forall_cons; split;
    [ cbn; split; [done |];
      match goal with
      | H : DescriptorPool.messages pool !! ?k = Some ?d |- full_name ?d = ?k =>
          by apply Hmsg in H as [? _]
      end |]).
  apply Forall_nil_2.
Qed.

End Construction.

(** ** Further properties of the driver and of create-platform *)

Section DriverMore.
Context (env : Env).
Context {platform_codec : Codec PlatformDefinition.t}
        {node_codec : Codec NetworkNode.t}
        {link_codec : Codec BidirectionalLink.t}
        {clear_codec : Codec ClearScenarioRequest.t}
        {get_codec : Codec GetScenarioRequest.t}
        {snapshot_codec : Codec ScenarioSnapshot.t}
        {empty_codec : Codec empty_pb2.Empty.t}.

(** X6. When the client cannot be constructed the driver ends with the
    exception of the construction before it touches the service: no call
    is issued and nothing is printed. A descriptor file that cannot be
    read gives [FileNotFoundError], a file that does not decode as a
    bundle gives [DecodeError]. *)
Theorem main_stops_without_client (args : Namespace.t) (w : World) :
  (forall e,
     DynamicNBI.__init__ env (insecure_channel (Namespace.endpoint args))
       (Namespace.descriptor args) (Namespace.timeout args) = inl e ->
     main env args w = (inl e, w)) /\
  (read_bytes env (Namespace.descriptor args) = None ->
   main env args w = (inl (FileNotFoundError (Namespace.descriptor args)), w)) /\
  (forall data,
     read_bytes env (Namespace.descriptor args) = Some data ->
     parse_descriptor_set env data = None ->
     main env args w = (inl DecodeError, w)).
Proof.
  assert (Hstop : forall e,
    DynamicNBI.__init__ env (insecure_channel (Namespace.endpoint args))
      (Namespace.descriptor args) (Namespace.timeout args) = inl e ->
    main env args w = (inl e, w)).
  { intros e Hinit. unfold main. by rewrite Hinit. }
  split; [exact Hstop |]. split.
  - intros Hread. apply Hstop. unfold DynamicNBI.__init__. by rewrite Hread.
  - intros data Hread Hparse. apply Hstop. unfold DynamicNBI.__init__.
    rewrite Hread. cbn. by rewrite Hparse.
Qed.
(** X7. The run without the skip-clear flag is the clear-scenario call
    followed by the run with the flag: when the service answers the
    clear-scenario call with a response that deserializes into [Empty],
    the driver goes on exactly as it does with [--skip-clear] once that
    call is on the channel; when the call fails the driver ends with its
    failure, and when the response does not deserialize it ends with the
    failure of the status INTERNAL, in both cases with that one call
    made. *)
Theorem main_is_clear_then_skip_clear (args : Namespace.t) (w : World)
  (client : DynamicNBI.t) :
  Namespace.skip_clear args = false ->
  DynamicNBI.__init__ env (insecure_channel (Namespace.endpoint args))
    (Namespace.descriptor args) (Namespace.timeout args) = inr client ->
  let cleared := {| calls := calls w ++ [clear_scenario_call args]; stdout := stdout w |} in
  match transport env (DynamicNBI.channel client) (calls w) (clear_scenario_call args) with
  | Response data =>
      match ParseFromString empty_pb2.Empty.new data with
      | Some _ => main env args w = main env (with_skip_clear args) cleared
      | None =>
          main env args w =
          (inl (RpcError (RpcStatusError 13 "Exception deserializing response!")), cleared)
      end
  | Failure failure => main env args w = (inl (RpcError failure), cleared)
  end.
Proof.
  intros Hflag Hinit. destruct (init_attributes _ _ _ _ _ Hinit) as [_ Ht].
  cbn zeta. unfold main, with_skip_clear. cbn [Namespace.endpoint Namespace.descriptor
    Namespace.timeout Namespace.skip_clear Namespace.transceiver_id].
  rewrite Hflag, Hinit. cbn [negb]. rewrite !with_client_run, !bind_run.
  rewrite clear_scenario_run. cbn zeta. unfold answer, issued, sent, clear_scenario_call,
    driver_call. cbn [DynamicNBI.self DynamicNBI.world calls stdout]. rewrite Ht.
  destruct (transport env _ _ _) as [data | failure]; [| reflexivity].
  destruct (ParseFromString empty_pb2.Empty.new data) as [msg |]; reflexivity.
Qed.

End DriverMore.

(** X8. The platform message that create-platform sends carries the name
    and the type given, the number the client resolved for
    [UNKNOWN_SOURCE], and a position that is present whatever the
    coordinates are, also for the origin: its point holds the three
    coordinates in the order given. Printed, it shows the three
    coordinates with one decimal. *)
Theorem create_platform_message (name typ : string)
  (coords : spec_float * spec_float * spec_float) (s : DynamicNBI.State) :
  exists plat : PlatformDefinition.t,
    PlatformDefinition.name plat = name /\
    PlatformDefinition.type plat = typ /\
    PlatformDefinition.motion_source plat = DynamicNBI.motion_unknown (DynamicNBI.self s) /\
    (exists motion axes,
       PlatformDefinition.has_coordinates plat = Some motion /\
       Motion.has_ecef_fixed motion = Some axes /\
       PointAxes.has_point axes = Some (Cartesian.mk coords.1.1 coords.1.2 coords.2)) /\
    (forall (env : Env) (platform_codec : Codec PlatformDefinition.t),
       DynamicNBI.create_platform env name typ coords s =
       DynamicNBI._unary env
         "/aalyria.spacetime.api.nbi.v1alpha.PlatformService/CreatePlatform"
         plat (DynamicNBI.PlatformDefinition (DynamicNBI.self s)) s) /\
    (forall indent stdout,
       print_platforms [plat] indent stdout =
       stdout ++ [ indent +:+ "Platforms:";
                   indent +:+ "- " +:+ name +:+ " [" +:+ typ +:+ "] coords=("
                     +:+ PyFloat.format_1f coords.1.1 +:+ ", "
                     +:+ PyFloat.format_1f coords.1.2 +:+ ", "
                     +:+ PyFloat.format_1f coords.2 +:+ ") m" ]).
Proof.
  exists (platform_message (DynamicNBI.motion_unknown (DynamicNBI.self s)) name typ coords).
  split; [reflexivity |]. split; [reflexivity |]. split; [reflexivity |].
  split; [by eexists _, _ |].
  split; [intros env platform_codec; apply create_platform_run |].
  intros indent stdout. rewrite print_platforms_lines. reflexivity.
Qed.
(** ** The PDF text extractor *)

Lemma append_assoc (a b c : string) : (a +:+ b) +:+ c = a +:+ (b +:+ c).
Proof.
  induction a as [| x a IH]; [reflexivity |].
  change (String x ((a +:+ b) +:+ c) = String x (a +:+ (b +:+ c))). by rewrite IH.
Qed.

Lemma append_empty (a : string) : a +:+ "" = a.
Proof.
  induction a as [| x a IH]; [reflexivity |].
  change (String x (a +:+ "") = String x a). by rewrite IH.
Qed.

(** The loop over pages that all give text. *)
Lemma extract_pages_texts (text : string) (log : list string)
  (pages : list extract_pdf.Page) (texts : list string) :
  map extract_pdf.page_text pages = map inr texts ->
  extract_pdf.extract_pages text log pages =
  (log ++ concat (map extract_pdf.page_log pages),
   inr (text +:+ foldr (fun page_text rest => page_text +:+ LF +:+ rest) "" texts)).
Proof.
  revert text log texts. induction pages as [| page pages IH]; intros text log [| t texts];
    cbn [map]; try discriminate.
  - intros _. cbn. by rewrite append_empty, app_nil_r.
  - intros Hpages. assert (Hpage : extract_pdf.page_text page = inr t) by congruence.
    assert (Hrest : map extract_pdf.page_text pages = map inr texts) by congruence.
    cbn [extract_pdf.extract_pages concat foldr]. rewrite Hpage, (IH _ _ _ Hrest).
    by rewrite !append_assoc, <- app_assoc.
Qed.



(** X10. When the library imports, the file opens, every page gives its
    text and [print] takes the text, the extractor prints, in one piece,
    the texts of the pages in their order, each followed by a line feed,
    and exits with status 0; standard error holds what the library
    logged while it opened the file and read the pages, in that order,
    and no error line; a document without pages prints the empty text. *)
Theorem script_prints_pages (env : extract_pdf.Env) (argv : list string) (arg : string)
  (log : list string) (pages : list extract_pdf.Page) (texts : list string) :
  extract_pdf.import_pypdf env = inr tt ->
  argv !! 1 = Some arg ->
  extract_pdf.PdfReader env (extract_pdf.path_str env arg) = (log, inr pages) ->
  map extract_pdf.page_text pages = map inr texts ->
  extract_pdf.print_text env
    (foldr (fun page_text rest => page_text +:+ LF +:+ rest) "" texts) = inr tt ->
  extract_pdf.script env argv =
  {| extract_pdf.stdout :=
       [foldr (fun page_text rest => page_text +:+ LF +:+ rest) "" texts];
     extract_pdf.stderr := log ++ concat (map extract_pdf.page_log pages);
     extract_pdf.status := 0 |}.
Proof.
  intros Himport Harg Hreader Hpages Hprint. unfold extract_pdf.script, extract_pdf.extract.
  rewrite Himport, Harg. cbn zeta.
  rewrite Hreader, (extract_pages_texts _ _ _ _ Hpages).
  change ("" +:+ ?text) with text. cbv beta iota. rewrite Hprint. reflexivity.
Qed.

(** ** The further properties on the test data *)

(** X3 on the test bundle with its files in reverse order and without
    its first file: the constructor raises the [TypeError] of the file
    that imports a file not yet loaded. *)
Lemma bundle_loads_in_import_order_witness :
  DynamicNBI.__init__ TestEnv.env_serving (insecure_channel "localhost:50051")
    "reversed.pb" (PyFloat.of_Z 10) = inl (TypeError "api/nbi/v1alpha/nbi.proto") /\
  DynamicNBI.__init__ TestEnv.env_serving (insecure_channel "localhost:50051")
    "headless.pb" (PyFloat.of_Z 10) = inl (TypeError "api/nbi/v1alpha/nbi.proto").
Proof.
  split.
  - destruct (bundle_loads_in_import_order TestEnv.env_serving (reverse TestEnv.bundle))
      as (Hraises & Horder & _).
    destruct (Horder [] _ _ "api/common/platform.proto" eq_refl) as (fd & Hfd & Hload).
    { apply list_elem_of_here. }
    { apply not_elem_of_nil. }
    cbn [app] in Hfd. apply list_elem_of_singleton in Hfd as ->.
    apply (proj2 (Hraises _ Hload) _ _ _ [Byte.x0d]); reflexivity.
  - destruct (bundle_loads_in_import_order TestEnv.env_serving (drop 1 TestEnv.bundle))
      as (Hraises & Horder & _).
    destruct (Horder [] _ _ "api/common/platform.proto" eq_refl) as (fd & Hfd & Hload).
    { apply list_elem_of_here. }
    { apply not_elem_of_nil. }
    cbn [app] in Hfd. apply list_elem_of_singleton in Hfd as ->.
    apply (proj2 (Hraises _ Hload) _ _ _ [Byte.x0c]); reflexivity.
Defined.

(** X5 on the test client. *)
Lemma constructed_client_witness :
  DynamicNBI.channel TestEnv.client = insecure_channel "localhost:50051" /\
  DynamicNBI.timeout TestEnv.client = PyFloat.of_Z 10 /\
  Forall (fun class : string * Descriptor =>
            DescriptorPool.messages (DynamicNBI.pool TestEnv.client) !! class.1
              = Some class.2 /\
            full_name class.2 = class.1)
    (resolved_classes TestEnv.client).
Proof.
  assert (Hinit :
    DynamicNBI.__init__ TestEnv.env_serving (insecure_channel "localhost:50051")
      "nbi_descriptor.pb" (PyFloat.of_Z 10) = inr TestEnv.client)
    by reflexivity.
  destruct (constructed_client TestEnv.env_serving _ _ _ _ Hinit)
    as (Hchannel & Htimeout & _ & _ & Hclasses & _).
  split; [exact Hchannel |]. split; [exact Htimeout | exact Hclasses].
Defined.

(** X6 on a descriptor file that is missing and on one that is no
    bundle. *)
Lemma main_stops_without_client_witness :
  TestMore.main_serving TestMore.missing_args TestEnv.start
    = (inl (FileNotFoundError "missing.pb"), TestEnv.start) /\
  TestMore.main_garbled TestEnv.default_args TestEnv.start
    = (inl DecodeError, TestEnv.start).
Proof.
  split.
  - apply main_stops_without_client. reflexivity.
  - apply (proj2 (proj2 (main_stops_without_client TestMore.env_garbled
                           (platform_codec := TestEnv.stub_codec _)
                           (node_codec := TestEnv.stub_codec _)
                           (link_codec := TestEnv.stub_codec _)
                           (clear_codec := TestEnv.stub_codec _)
                           (get_codec := TestEnv.stub_codec _)
                           (snapshot_codec := TestEnv.snapshot_codec)
                           (empty_codec := TestEnv.stub_codec _)
                           TestEnv.default_args TestEnv.start)) [Byte.x00]);
      reflexivity.
Defined.

(** X7 on the serving test service. *)
Lemma main_is_clear_then_skip_clear_witness :
  TestMore.main_serving TestEnv.default_args TestEnv.start =
  TestMore.main_serving (with_skip_clear TestEnv.default_args)
    {| calls := [TestMore.clear_call]; stdout := [] |}.
Proof.
  assert (Hinit :
    DynamicNBI.__init__ TestEnv.env_serving
      (insecure_channel (Namespace.endpoint TestEnv.default_args))
      (Namespace.descriptor TestEnv.default_args)
      (Namespace.timeout TestEnv.default_args) = inr TestEnv.client)
    by reflexivity.
  exact (main_is_clear_then_skip_clear TestEnv.env_serving
           (platform_codec := TestEnv.stub_codec _) (node_codec := TestEnv.stub_codec _)
           (link_codec := TestEnv.stub_codec _) (clear_codec := TestEnv.stub_codec _)
           (get_codec := TestEnv.stub_codec _) (snapshot_codec := TestEnv.snapshot_codec)
           (empty_codec := TestEnv.stub_codec _)
           TestEnv.default_args TestEnv.start TestEnv.client eq_refl Hinit).
Defined.


(** X10 on a document of two pages that the library reads with two
    warnings. *)
Lemma script_prints_pages_witness :
  extract_pdf.script extract_pdf.test_env ["extract_pdf.py"; "ok.pdf"]
    = {| extract_pdf.stdout := ["one" +:+ LF +:+ "two" +:+ LF];
         extract_pdf.stderr :=
           ["incorrect startxref pointer(1)"; "impossible to decode XFormObject"];
         extract_pdf.status := 0 |}.
Proof.
  apply (script_prints_pages extract_pdf.test_env ["extract_pdf.py"; "ok.pdf"] "ok.pdf"
           ["incorrect startxref pointer(1)"]
           [ {| extract_pdf.page_log := []; extract_pdf.page_text := inr "one" |};
             {| extract_pdf.page_log := ["impossible to decode XFormObject"];
                extract_pdf.page_text := inr "two" |} ]
           ["one"; "two"]); reflexivity.
Defined.
